(** * Employee recognition service: access control, validation and fanout

    A shallow embedding of the TypeScript services of the employee
    recognition API ([RecognitionService], [UserService],
    [AnalyticsService]) and the properties of its specification.

    Conventions of the embedding.
    - A JavaScript string is a [string]; each character stands for one
      UTF-16 code unit in the range 0..255 (ISO 8859-1), so [String.length]
      is the [.length] of the source and [toLowerCase], [trim] and the
      regular expression class [\s] are exact on that range.
    - [async] methods run to completion one after the other: a method is a
      function from the state of the world (database tables, message bus)
      to a result and a new state.  A thrown [Error] is the left summand of
      the result; the world that was reached when it was thrown is kept,
      since nothing in the source rolls anything back.
    - The database is the tables [users] and [recognitions] of
      [database/schema.sql], and the statements of the service are executed
      against them as written.  A statement the schema refuses (a value
      that is no label of the enum [visibility], a column the table does
      not have) is rejected with the error of the server, and the method
      throws it.  A [JSONB] column comes back from the driver as the value
      it holds, not as text.  Ids are compared as text, and every
      statement the schema accepts is answered: keys, connections and the
      syntax of ids are not modelled.
    - The message bus records every [publish] call and resolves or rejects
      it according to a script held in the world. *)

From Stdlib Require Import ZArith NArith Ascii String List Lia DecimalString Sorted.
From stdpp Require Import base option list strings gmap.

Local Open Scope string_scope.
Local Open Scope list_scope.

(** ** JavaScript strings *)

Module JS.

(** Code unit of a character. *)
Definition code (c : ascii) : N := N_of_ascii c.

(** The class [\s] of regular expressions, which is also what [trim]
    removes: TAB, LF, VT, FF, CR, SPACE and NO-BREAK SPACE are its members
    below 256. *)
Definition isWhiteSpace (c : ascii) : bool :=
  let n := code c in
  ((9 <=? n) && (n <=? 13) || (n =? 32) || (n =? 160))%N.

(** The class [[a-zA-Z]]. *)
Definition isAsciiLetter (c : ascii) : bool :=
  let n := code c in
  ((65 <=? n) && (n <=? 90) || (97 <=? n) && (n <=? 122))%N.

(** [String.prototype.toLowerCase] on one code unit: A-Z and the capital
    letters of the upper half (all of 192..222 but the multiplication
    sign) move 32 places up. *)
Definition lowerChar (c : ascii) : ascii :=
  let n := code c in
  if ((65 <=? n) && (n <=? 90)
      || (192 <=? n) && (n <=? 222) && negb (n =? 215))%N
  then ascii_of_N (n + 32) else c.

Fixpoint toLowerCase (s : string) : string :=
  match s with
  | EmptyString => EmptyString
  | String c s' => String (lowerChar c) (toLowerCase s')
  end.

Fixpoint trimStart (s : string) : string :=
  match s with
  | EmptyString => EmptyString
  | String c s' => if isWhiteSpace c then trimStart s' else s
  end.

Fixpoint trimEnd (s : string) : string :=
  match s with
  | EmptyString => EmptyString
  | String c s' =>
      match trimEnd s' with
      | EmptyString => if isWhiteSpace c then EmptyString else String c EmptyString
      | r => String c r
      end
  end.

(** [String.prototype.trim]. *)
Definition trim (s : string) : string := trimEnd (trimStart s).

(** [hay.includes(needle)]. *)
Fixpoint includes (hay needle : string) : bool :=
  String.prefix needle hay
  || match hay with
     | EmptyString => false
     | String _ hay' => includes hay' needle
     end.

(** [arr.includes(x)] on an array of strings. *)
Definition arrayIncludes (arr : list string) (x : string) : bool :=
  existsb (String.eqb x) arr.

(** [s.split(/\s+/)] for a non-empty [s].  [cur] is the piece being read,
    last character first; [in_sep] tells that the previous character
    belonged to a separator.  A separator at the very start or end leaves
    an empty piece there, as in the source language. *)
Fixpoint split_ws_go (cur : list ascii) (in_sep : bool) (s : string)
  : list string :=
  match s with
  | EmptyString => [string_of_list_ascii (rev cur)]
  | String c s' =>
      if isWhiteSpace c then
        if in_sep then split_ws_go [] true s'
        else string_of_list_ascii (rev cur) :: split_ws_go [] true s'
      else split_ws_go (c :: cur) false s'
  end.

Definition split_ws (s : string) : list string := split_ws_go [] false s.

(** [/^[a-zA-Z]+$/.test(s)]. *)
Fixpoint allLetters (s : string) : bool :=
  match s with
  | EmptyString => true
  | String c s' => isAsciiLetter c && allLetters s'
  end.

Definition testLetters (s : string) : bool :=
  match s with
  | EmptyString => false
  | _ => allLetters s
  end.

(** ['a'.repeat(n)]. *)
Fixpoint repeat (c : ascii) (n : nat) : string :=
  match n with
  | O => EmptyString
  | S n' => String c (repeat c n')
  end.

(** Truthiness of a string: only the empty string is falsy. *)
Definition truthy (s : string) : bool :=
  match s with EmptyString => false | _ => true end.

(** [arr.join(sep)] on an array of strings. *)
Fixpoint join (sep : string) (arr : list string) : string :=
  match arr with
  | [] => EmptyString
  | x :: arr' =>
      match arr' with
      | [] => x
      | _ :: _ => x +:+ sep +:+ join sep arr'
      end
  end.

End JS.

(** ** JavaScript values *)

(** The values that flow through the service as [any]: rows, formatted
    responses and bus payloads.  An object is the list of its fields in the
    order of the object literal. *)
#[warnings="-register-all"]
Inductive JSVal : Type :=
| JUndefined
| JNull
| JBool (b : bool)
| JNum (n : Z)
| JStr (s : string)
| JArr (items : list JSVal)
| JObj (fields : list (string * JSVal)).

(** Own field of an object, [None] when the value has no such field. *)
Definition obj_get (k : string) (v : JSVal) : option JSVal :=
  match v with
  | JObj fields => snd <$> List.find (fun kv => String.eqb (fst kv) k) fields
  | _ => None
  end.

(** The property read [v.k]: a missing field reads as [undefined]. *)
Definition js_get (k : string) (v : JSVal) : JSVal :=
  default JUndefined (obj_get k v).

(** [v == null]: the value is [null] or [undefined] (which is also what a
    nullable GraphQL field renders as [null]). *)
Definition js_nullish (v : JSVal) : bool :=
  match v with
  | JNull | JUndefined => true
  | _ => false
  end.

Definition js_strings (l : list string) : JSVal := JArr (JStr <$> l).

(** Truthiness of a value ([NaN] is not among the numbers of the model). *)
Definition js_truthy (v : JSVal) : bool :=
  match v with
  | JUndefined | JNull => false
  | JBool b => b
  | JNum n => negb (n =? 0)%Z
  | JStr s => JS.truthy s
  | JArr _ | JObj _ => true
  end.

(** [a || b]. *)
Definition js_or (a b : JSVal) : JSVal := if js_truthy a then a else b.

(** [String(v)], the conversion to a string that [JSON.parse] applies to
    its argument: an array is the [join] of its items, in which [null] and
    [undefined] leave nothing. *)
Fixpoint toString (v : JSVal) : string :=
  match v with
  | JUndefined => "undefined"
  | JNull => "null"
  | JBool b => if b then "true" else "false"
  | JNum n => NilZero.string_of_int (Z.to_int n)
  | JStr s => s
  | JArr items =>
      JS.join ","
        (List.map (fun item =>
                     match item with
                     | JUndefined | JNull => EmptyString
                     | _ => toString item
                     end) items)
  | JObj _ => "[object Object]"
  end.

(** The service applies [JSON.stringify] to arrays of strings only, and
    writes nothing else into the [JSONB] column [keywords].  The text of
    such an array is represented by the array it denotes. *)
Inductive JsonText : Type :=
| JsonOf (elements : list string).

Definition JSON_stringify (keywords : list string) : JsonText :=
  JsonOf keywords.

(** ** Errors *)

(** The service throws [new Error(message)]: an error is its message. *)
Definition Error : Type := string.

Definition E_MESSAGE_REQUIRED : Error := "Message is required".
Definition E_MESSAGE_TOO_LONG : Error := "Message cannot exceed 500 characters".
Definition E_INAPPROPRIATE : Error := "Message contains inappropriate content".
Definition E_INVALID_VISIBILITY : Error :=
  "Invalid visibility setting. Must be PUBLIC, PRIVATE, or ANONYMOUS".
Definition E_RECIPIENT_REQUIRED : Error := "Recipient ID is required".
Definition E_SELF_RECOGNITION : Error := "Cannot recognize yourself".
Definition E_RECIPIENT_NOT_FOUND : Error := "Recipient not found".
Definition E_NOT_FOUND_OR_DENIED : Error := "Recognition not found or access denied".
Definition E_NOT_FOUND : Error := "Recognition not found".
Definition E_UPDATE_NOT_OWN : Error := "You can only update your own recognitions".
Definition E_DELETE_NOT_OWN : Error := "You can only delete your own recognitions".
Definition E_NO_FIELDS : Error := "No fields to update".
(** Thrown by the runtime, not by the service.  [E_JSON_SYNTAX] stands for
    the [SyntaxError] of [JSON.parse], whatever its message. *)
Definition E_JSON_SYNTAX : Error := "SyntaxError: Unexpected token in JSON".
Definition E_TYPE_ERROR : Error := "TypeError: Cannot read properties of undefined".
Definition E_PUBLISH_REJECTED : Error := "publish rejected".

(** Thrown by the driver when the server refuses a statement. *)
Definition quoted (s : string) : string :=
  String (ascii_of_N 34) s +:+ String (ascii_of_N 34) EmptyString.

Definition E_INVALID_ENUM (label : string) : Error :=
  "invalid input value for enum visibility: " +:+ quoted label.

Definition E_UNDEFINED_COLUMN (column : string) : Error :=
  "column " +:+ quoted column +:+ " of relation " +:+ quoted "recognitions"
  +:+ " does not exist".

(** The error classes of the specification.  The source throws plain
    [Error]s; each of its messages is given the class the specification
    names for that failure, and a message it does not classify has none. *)
Inductive ErrorKind : Type :=
| ValidationError
| ConflictError
| PermissionError
| NotFoundError.

Definition errorKind (e : Error) : option ErrorKind :=
  if String.eqb e E_MESSAGE_REQUIRED then Some ValidationError
  else if String.eqb e E_MESSAGE_TOO_LONG then Some ValidationError
  else if String.eqb e E_INAPPROPRIATE then Some ValidationError
  else if String.eqb e E_INVALID_VISIBILITY then Some ValidationError
  else if String.eqb e E_RECIPIENT_REQUIRED then Some ValidationError
  else if String.eqb e E_NO_FIELDS then Some ValidationError
  else if String.eqb e E_SELF_RECOGNITION then Some ConflictError
  else if String.eqb e E_UPDATE_NOT_OWN then Some PermissionError
  else if String.eqb e E_DELETE_NOT_OWN then Some PermissionError
  else if String.eqb e E_NOT_FOUND then Some NotFoundError
  else if String.eqb e E_NOT_FOUND_OR_DENIED then Some NotFoundError
  else None.

(** ** The world: database tables and message bus *)

(** A row of [users]. *)
Record UserRow : Type := {
  user_id : string;
  user_name : string;
  user_email : string;
  user_team_id : option string;
  user_role : string
}.

(** A row of [recognitions], with the columns of the schema.  [sender_id]
    is [NULL] for an anonymous recognition; [visibility] holds a label of
    the enum; [keywords], of type [JSONB], is [NULL] or holds an array of
    strings, given by its text. *)
Record RecognitionRow : Type := {
  rec_id : string;
  sender_id : option string;
  recipient_id : string;
  message : string;
  visibility : string;
  keywords : option JsonText;
  created_at : Z
}.

(** [CREATE TYPE visibility AS ENUM ('PUBLIC', 'PRIVATE', 'ANONYMOUS')]. *)
Definition visibility_labels : list string := ["PUBLIC"; "PRIVATE"; "ANONYMOUS"].

(** The columns of [CREATE TABLE recognitions]. *)
Definition recognition_columns : list string :=
  ["id"; "sender_id"; "recipient_id"; "message"; "visibility"; "keywords";
   "created_at"].

(** A row as a statement returns it: the columns of the recognition and the
    joined columns, which are [undefined] when the statement does not
    select them and [null] when the left join finds no sender. *)
Record ResultRow : Type := {
  base : RecognitionRow;
  sender_name : JSVal;
  sender_email : JSVal;
  recipient_name : JSVal;
  recipient_email : JSVal
}.

(** One call of [pubsub.publish], and whether its promise resolved. *)
Record PublishCall : Type := {
  channel : string;
  payload : JSVal;
  resolved : bool
}.

Record World : Type := {
  users : gmap string UserRow;          (* primary key: id *)
  recognitions : list RecognitionRow;   (* in insertion order *)
  uuid_seed : nat;                      (* feeds uuid_generate_v4() *)
  clock : Z;                            (* NOW() *)
  bus_script : list bool;               (* outcome of the next publish calls:
                                           false rejects, true or none resolves *)
  bus_calls : list PublishCall          (* every publish call so far *)
}.

(** ** Methods as state transformers that may throw *)

Definition M (A : Type) : Type := World -> (Error + A) * World.

Definition ret {A} (a : A) : M A := fun w => (inr a, w).

Definition throw {A} (e : Error) : M A := fun w => (inl e, w).

Definition bind {A B} (m : M A) (k : A -> M B) : M B :=
  fun w =>
    match m w with
    | (inl e, w') => (inl e, w')
    | (inr a, w') => k a w'
    end.

(** [try { body } catch (error) { handler }]. *)
Definition try_catch {A} (body : M A) (handler : Error -> M A) : M A :=
  fun w =>
    match body w with
    | (inl e, w') => handler e w'
    | (inr a, w') => (inr a, w')
    end.

#[global] Instance M_ret : MRet M := @ret.
#[global] Instance M_bind : MBind M := fun A B k m => bind m k.

(** A check that throws without touching the world. *)
Definition Exc (A : Type) : Type := Error + A.

#[global] Instance Exc_ret : MRet Exc := fun A a => inr a.
#[global] Instance Exc_bind : MBind Exc :=
  fun A B k m => match m with inl e => inl e | inr a => k a end.

Definition lift {A} (r : Exc A) : M A := fun w => (r, w).

(** [rows.map(f)] where [f] may throw: the first throw ends the loop. *)
Fixpoint mapExc {A B} (f : A -> Exc B) (l : list A) : Exc (list B) :=
  match l with
  | [] => inr []
  | a :: l' => b ← f a; bs ← mapExc f l'; inr (b :: bs)
  end.

(** ** JSON texts *)

(** The grammar of JSON, read from the left.  A reader takes a text and
    returns what it read and the rest of the text, or [None] when the text
    does not start with what it looks for. *)
Module JSON.

(** The whitespace of the grammar: TAB, LF, CR and SPACE. *)
Definition isWs (c : ascii) : bool :=
  let n := JS.code c in
  ((n =? 9) || (n =? 10) || (n =? 13) || (n =? 32))%N.

Fixpoint skip (s : string) : string :=
  match s with
  | EmptyString => EmptyString
  | String c s' => if isWs c then skip s' else s
  end.

Definition digit (c : ascii) : option Z :=
  let n := JS.code c in
  if ((48 <=? n) && (n <=? 57))%N then Some (Z.of_N (n - 48)) else None.

Definition hexDigit (c : ascii) : option N :=
  let n := JS.code c in
  if ((48 <=? n) && (n <=? 57))%N then Some (n - 48)%N
  else if ((65 <=? n) && (n <=? 70))%N then Some (n - 55)%N
  else if ((97 <=? n) && (n <=? 102))%N then Some (n - 87)%N
  else None.

(** [s] without its prefix [p]. *)
Fixpoint after (p s : string) : option string :=
  match p with
  | EmptyString => Some s
  | String a p' =>
      match s with
      | EmptyString => None
      | String b s' => if Ascii.eqb a b then after p' s' else None
      end
  end.

(** One of the words [true], [false] and [null]. *)
Definition literal (word : string) (v : JSVal) (s : string) : option (JSVal * string) :=
  match after word s with
  | Some rest => Some (v, rest)
  | None => None
  end.

Fixpoint digits (acc : Z) (s : string) : Z * string :=
  match s with
  | EmptyString => (acc, s)
  | String c s' =>
      match digit c with
      | Some d => digits (10 * acc + d) s'
      | None => (acc, s)
      end
  end.

(** A numeral.  The numbers of the model are the integers: a numeral with a
    fraction or an exponent is outside the model and is not read. *)
Definition number (s : string) : option (JSVal * string) :=
  let sign_rest :=
    match s with
    | String c r => if (JS.code c =? 45)%N then (true, r) else (false, s)
    | EmptyString => (false, s)
    end in
  match snd sign_rest with
  | EmptyString => None
  | String c r =>
      match digit c with
      | None => None
      | Some d =>
          let read := if (d =? 0)%Z then (0%Z, r) else digits d r in
          let n := if fst sign_rest then (- fst read)%Z else fst read in
          match snd read with
          | EmptyString => Some (JNum n, EmptyString)
          | String x _ =>
              if ((JS.code x =? 46) || (JS.code x =? 101) || (JS.code x =? 69))%N
              then None
              else Some (JNum n, snd read)
          end
      end
  end.

(** The character an escape [\c] stands for. *)
Definition escape (c : ascii) : option ascii :=
  let n := JS.code c in
  if ((n =? 34) || (n =? 92) || (n =? 47))%N then Some c
  else if (n =? 98)%N then Some (ascii_of_N 8)
  else if (n =? 102)%N then Some (ascii_of_N 12)
  else if (n =? 110)%N then Some (ascii_of_N 10)
  else if (n =? 114)%N then Some (ascii_of_N 13)
  else if (n =? 116)%N then Some (ascii_of_N 9)
  else None.

Definition consChar (c : ascii) (r : option (string * string)) : option (string * string) :=
  match r with
  | Some (str, rest) => Some (String c str, rest)
  | None => None
  end.

(** The characters of a string, after its opening quote and up to the
    closing one.  Control characters must be escaped; an escape [\uXXXX]
    above 255 names a character outside the model and is not read. *)
Fixpoint chars (s : string) : option (string * string) :=
  match s with
  | EmptyString => None
  | String c s' =>
      if (JS.code c =? 34)%N then Some (EmptyString, s')
      else if (JS.code c =? 92)%N then
        match s' with
        | EmptyString => None
        | String e s'' =>
            if (JS.code e =? 117)%N then
              match s'' with
              | String h1 (String h2 (String h3 (String h4 r))) =>
                  match hexDigit h1, hexDigit h2, hexDigit h3, hexDigit h4 with
                  | Some x1, Some x2, Some x3, Some x4 =>
                      let n := (((x1 * 16 + x2) * 16 + x3) * 16 + x4)%N in
                      if (n <? 256)%N then consChar (ascii_of_N n) (chars r) else None
                  | _, _, _, _ => None
                  end
              | _ => None
              end
            else
              match escape e with
              | Some ch => consChar ch (chars s'')
              | None => None
              end
        end
      else if (JS.code c <? 32)%N then None
      else consChar c (chars s')
  end.

(** A member [k: v] of an object under construction: a later member of the
    same name replaces the value of the earlier one. *)
Fixpoint setField (k : string) (v : JSVal) (fields : list (string * JSVal))
  : list (string * JSVal) :=
  match fields with
  | [] => [(k, v)]
  | (k', v') :: fields' =>
      if String.eqb k' k then (k', v) :: fields'
      else (k', v') :: setField k v fields'
  end.

(** A value, the elements of an array after its opening bracket, the
    members of an object after its opening brace.  [fuel] bounds the depth
    of the calls; twice the length of the text is enough, since two calls
    in a row read at least one character. *)
Fixpoint value (fuel : nat) (s : string) : option (JSVal * string) :=
  match fuel with
  | O => None
  | S fuel' =>
      match skip s with
      | EmptyString => None
      | String c r =>
          let n := JS.code c in
          if (n =? 91)%N then
            match skip r with
            | EmptyString => None
            | String c' r' =>
                if (JS.code c' =? 93)%N then Some (JArr [], r')
                else
                  match elements fuel' r with
                  | Some (items, rest) => Some (JArr items, rest)
                  | None => None
                  end
            end
          else if (n =? 123)%N then
            match skip r with
            | EmptyString => None
            | String c' r' =>
                if (JS.code c' =? 125)%N then Some (JObj [], r')
                else
                  match members fuel' [] r with
                  | Some (fields, rest) => Some (JObj fields, rest)
                  | None => None
                  end
            end
          else if (n =? 34)%N then
            match chars r with
            | Some (str, rest) => Some (JStr str, rest)
            | None => None
            end
          else if (n =? 116)%N then literal "true" (JBool true) (String c r)
          else if (n =? 102)%N then literal "false" (JBool false) (String c r)
          else if (n =? 110)%N then literal "null" JNull (String c r)
          else number (String c r)
      end
  end
with elements (fuel : nat) (s : string) : option (list JSVal * string) :=
  match fuel with
  | O => None
  | S fuel' =>
      match value fuel' s with
      | None => None
      | Some (v, r) =>
          match skip r with
          | EmptyString => None
          | String c r' =>
              if (JS.code c =? 44)%N then
                match elements fuel' r' with
                | Some (items, rest) => Some (v :: items, rest)
                | None => None
                end
              else if (JS.code c =? 93)%N then Some ([v], r')
              else None
          end
      end
  end
with members (fuel : nat) (seen : list (string * JSVal)) (s : string)
  : option (list (string * JSVal) * string) :=
  match fuel with
  | O => None
  | S fuel' =>
      match skip s with
      | EmptyString => None
      | String q r =>
          if negb (JS.code q =? 34)%N then None
          else
            match chars r with
            | None => None
            | Some (k, r1) =>
                match skip r1 with
                | EmptyString => None
                | String colon r2 =>
                    if negb (JS.code colon =? 58)%N then None
                    else
                      match value fuel' r2 with
                      | None => None
                      | Some (v, r3) =>
                          let seen' := setField k v seen in
                          match skip r3 with
                          | EmptyString => None
                          | String c r4 =>
                              if (JS.code c =? 44)%N then members fuel' seen' r4
                              else if (JS.code c =? 125)%N then Some (seen', r4)
                              else None
                          end
                      end
                end
            end
      end
  end.

(** [JSON.parse(text)] for a string [text]: one value, and nothing but
    whitespace around it. *)
Definition parse (text : string) : Exc JSVal :=
  match value (2 * String.length text + 2) text with
  | Some (v, rest) =>
      match skip rest with
      | EmptyString => inr v
      | String _ _ => inl E_JSON_SYNTAX
      end
  | None => inl E_JSON_SYNTAX
  end.

End JSON.

(** [JSON.parse(v)] for any value [v]: the argument is converted to a
    string first, so [JSON.parse(null)] is [null] and an array is parsed as
    the [join] of its items. *)
Definition JSON_parse (v : JSVal) : Exc JSVal := JSON.parse (toString v).

(** ** Database statements *)

(** The ids [uuid_generate_v4()] draws are named in the order they are
    drawn. *)
Definition uuid_generate_v4 (seed : nat) : string :=
  "rec-" +:+ NilZero.string_of_uint (Nat.to_uint seed).

(** A string given where the statement has a value of the type
    [visibility], as a parameter or as a literal: the server refuses a
    string that is no label of the enum. *)
Definition as_visibility (label : string) : M unit :=
  if JS.arrayIncludes visibility_labels label then ret tt
  else throw (E_INVALID_ENUM label).

(** The [keywords] of a row as the driver returns them: the value the
    [JSONB] column holds, an array of strings, or [null]. *)
Definition fetched (k : option JsonText) : JSVal :=
  match k with
  | Some (JsonOf elements) => js_strings elements
  | None => JNull
  end.

(** Columns of a recognition alone, as [SELECT *] and [RETURNING *] give. *)
Definition plain (r : RecognitionRow) : ResultRow :=
  {| base := r;
     sender_name := JUndefined; sender_email := JUndefined;
     recipient_name := JUndefined; recipient_email := JUndefined |}.

(** [FROM recognitions r LEFT JOIN users s ON r.sender_id = s.id
     JOIN users rec ON r.recipient_id = rec.id]: a recognition whose
    recipient is no user is dropped; one without sender keeps [NULL]s. *)
Definition join_users (us : gmap string UserRow) (r : RecognitionRow)
  : option ResultRow :=
  rec ← us !! recipient_id r;
  let s := sender_id r ≫= (fun i => us !! i) in
  Some {| base := r;
          sender_name := from_option (fun u => JStr (user_name u)) JNull s;
          sender_email := from_option (fun u => JStr (user_email u)) JNull s;
          recipient_name := JStr (user_name rec);
          recipient_email := JStr (user_email rec) |}.

(** [ORDER BY r.created_at DESC]: rows of equal time keep their order. *)
Fixpoint insert_desc (r : ResultRow) (l : list ResultRow) : list ResultRow :=
  match l with
  | [] => [r]
  | x :: l' =>
      if (created_at (base x) <=? created_at (base r))%Z then r :: l
      else x :: insert_desc r l'
  end.

Definition order_by_created_at_desc (l : list ResultRow) : list ResultRow :=
  foldr insert_desc [] l.

(** The joined [SELECT] of the three read methods. *)
Definition select_joined (cond : RecognitionRow -> bool) : M (list ResultRow) :=
  fun w => (inr (omap (join_users (users w)) (List.filter cond (recognitions w))), w).

(** [SELECT * FROM recognitions WHERE id = $1]. *)
Definition select_by_id (i : string) : M (list ResultRow) :=
  fun w => (inr (plain <$> List.filter (fun r => String.eqb (rec_id r) i) (recognitions w)), w).

(** [SELECT id, name, email, team_id FROM users WHERE id = $1]. *)
Definition select_user (i : string) : M (option UserRow) :=
  fun w => (inr (users w !! i), w).

(** [INSERT INTO recognitions (...) VALUES ($1, $2, $3, $4, $5, NOW())
     RETURNING *].  The text [$5] is stored as the array it denotes. *)
Definition new_row (values : option string * string * string * string * JsonText)
    (w : World) : RecognitionRow :=
  let '(v1, v2, v3, v4, v5) := values in
  {| rec_id := uuid_generate_v4 (uuid_seed w);
     sender_id := v1; recipient_id := v2; message := v3;
     visibility := v4; keywords := Some v5;
     created_at := clock w |}.

Definition append_row (values : option string * string * string * string * JsonText)
  : M ResultRow :=
  fun w =>
    let r := new_row values w in
    (inr (plain r),
     {| users := users w; recognitions := recognitions w ++ [r];
        uuid_seed := S (uuid_seed w); clock := (clock w + 1)%Z;
        bus_script := bus_script w; bus_calls := bus_calls w |}).

Definition insert_returning (values : option string * string * string * string * JsonText)
  : M ResultRow :=
  let '(_, _, _, v4, _) := values in
  as_visibility v4;;
  append_row values.

(** [UPDATE recognitions SET ... WHERE id = $n]: [columns] are the columns
    the [SET] list names, [label] the value it gives to [visibility], if
    any, and [set] what the assignments make of a row.  The server refuses
    the statement when it names a column the table does not have, and then
    when [label] is no label of the enum; otherwise the rows of that id are
    rewritten and, under [RETURNING *], returned. *)
Definition rewrite_rows (set : RecognitionRow -> RecognitionRow) (i : string)
  : M (list ResultRow) :=
  fun w =>
    let upd r := if String.eqb (rec_id r) i then set r else r in
    let rs := upd <$> recognitions w in
    (inr (plain <$> List.filter (fun r => String.eqb (rec_id r) i) rs),
     {| users := users w; recognitions := rs;
        uuid_seed := uuid_seed w; clock := (clock w + 1)%Z;
        bus_script := bus_script w; bus_calls := bus_calls w |}).

Definition update_returning (columns : list string) (label : option string)
    (set : RecognitionRow -> RecognitionRow) (i : string) : M (list ResultRow) :=
  match List.find (fun c => negb (JS.arrayIncludes recognition_columns c)) columns with
  | Some c => throw (E_UNDEFINED_COLUMN c)
  | None =>
      match label with
      | Some v => as_visibility v
      | None => ret tt
      end;;
      rewrite_rows set i
  end.

(** ** The message bus *)

(** Whether the next [publish] call resolves. *)
Definition next_resolves (script : list bool) : bool :=
  match script with
  | false :: _ => false
  | _ => true
  end.

(** [pubsub.publish(channel, payload)]: the call is recorded; it rejects
    when the script says so. *)
Definition publish (ch : string) (p : JSVal) : M unit :=
  fun w =>
    let ok := next_resolves (bus_script w) in
    (if ok then inr tt else inl E_PUBLISH_REJECTED,
     {| users := users w; recognitions := recognitions w;
        uuid_seed := uuid_seed w; clock := clock w;
        bus_script := tail (bus_script w);
        bus_calls := bus_calls w ++ [{| channel := ch; payload := p; resolved := ok |}] |}).

(** ** RecognitionService *)

Record CreateRecognitionInput : Type := {
  recipientId : string;
  input_message : string;
  input_visibility : string
}.

Record RecognitionFilters : Type := {
  limit : option nat;
  filter_visibility : option string
}.

(** The [input: any] of [updateRecognition]: a field is a string or is
    missing ([undefined]); [keywords] may also be given as [null]. *)
Record UpdateInput : Type := {
  update_id : string;
  update_message : option string;
  update_visibility : option string;
  update_keywords : option (option JsonText)
}.

Module RecognitionService.

Definition validateMessage (message : string) : Exc unit :=
  if negb (JS.truthy message) || (String.length (JS.trim message) =? 0)%nat
  then inl E_MESSAGE_REQUIRED
  else if (500 <? String.length message)%nat
  then inl E_MESSAGE_TOO_LONG
  else if JS.includes (JS.toLowerCase message) "spam"
  then inl E_INAPPROPRIATE
  else
    let blockedWords := ["offensive"; "inappropriate"; "hate"] in
    let lowerMessage := JS.toLowerCase message in
    let hasBlockedWord := existsb (fun word => JS.includes lowerMessage word) blockedWords in
    if hasBlockedWord then inl E_INAPPROPRIATE else inr tt.

Definition validateVisibility (visibility : string) : Exc unit :=
  let validVisibilities := ["PUBLIC"; "PRIVATE"; "ANONYMOUS"] in
  if negb (JS.arrayIncludes validVisibilities visibility)
  then inl E_INVALID_VISIBILITY
  else inr tt.

Definition validateRecipientSenderID (recipientId senderId : string) : Exc unit :=
  if negb (JS.truthy recipientId) then inl E_RECIPIENT_REQUIRED
  else if String.eqb recipientId senderId then inl E_SELF_RECOGNITION
  else inr tt.

Definition validateRecognitionInput (input : CreateRecognitionInput) (userId : string)
  : Exc unit :=
  validateMessage (input_message input);;
  validateVisibility (input_visibility input);;
  validateRecipientSenderID (recipientId input) userId.

Definition validateRecipient (recipientId : string) : M UserRow :=
  result ← select_user recipientId;
  match result with
  | None => throw E_RECIPIENT_NOT_FOUND
  | Some row => ret row
  end.

Definition stopWords : list string :=
  ["this"; "that"; "with"; "have"; "will"; "been"; "from"; "they"; "were";
   "said"; "each"; "which"; "their"; "time"; "would"].

(** [message] is [None] for a [null] or [undefined] argument. *)
Definition extractKeywords (message : option string) : list string :=
  match message with
  | None => []
  | Some message =>
      if negb (JS.truthy message) then []
      else
        let words := JS.split_ws (JS.toLowerCase message) in
        take 5
          (List.filter
             (fun word =>
                (3 <? String.length word)%nat
                && negb (JS.arrayIncludes stopWords word)
                && JS.testLetters word)
             words)
  end.

Definition insertValues (userId : string) (input : CreateRecognitionInput)
    (keywords : list string) : option string * string * string * string * JsonText :=
  (if String.eqb (input_visibility input) "ANONYMOUS" then None else Some userId,
   recipientId input,
   JS.trim (input_message input),
   input_visibility input,
   JSON_stringify keywords).

Definition insertRecognition (userId : string) (input : CreateRecognitionInput)
    (keywords : list string) : M ResultRow :=
  let values := insertValues userId input keywords in
  insert_returning values.

Definition userObject (i : JSVal) (name email : JSVal) : JSVal :=
  JObj [("id", i); ("name", name); ("email", email)].

(** The [const recognitionData] of [sendNotifications]. *)
Definition recognitionData (recognition : ResultRow) (recipient : UserRow)
    (parsed : JSVal) : JSVal :=
  JObj [("id", JStr (rec_id (base recognition)));
        ("message", JStr (message (base recognition)));
        ("visibility", JStr (visibility (base recognition)));
        ("keywords", parsed);
        ("createdAt", JNum (created_at (base recognition)));
        ("recipient",
          userObject (JStr (user_id recipient)) (JStr (user_name recipient))
                     (JStr (user_email recipient)))].

(** The [try] block catches whatever [JSON.parse] or [publish] throws;
    the [console] lines have no effect on the world. *)
Definition sendNotifications (recognition : ResultRow) (recipient : UserRow) : M unit :=
  try_catch
    (parsed ← lift (JSON_parse (fetched (keywords (base recognition))));
     let recognitionData := recognitionData recognition recipient parsed in
     publish "RECOGNITION_RECEIVED" (JObj [("recognitionReceived", recognitionData)]);;
     (if String.eqb (visibility (base recognition)) "PUBLIC"
      then publish "RECOGNITION_CREATED" (JObj [("recognitionCreated", recognitionData)])
      else ret tt);;
     ret tt)
    (fun error => ret tt).

(** [input] is the [keywords] of a row: the array the driver made of the
    column, which [Array.isArray] lets through as it is, or [null], for
    which [JSON.parse] returns [null], no array.  The [catch] branch is for
    strings, which the column does not give. *)
Definition parseKeywords (input : option JsonText) : JSVal :=
  match fetched input with
  | JArr items => JArr items
  | _ => JArr []
  end.

Definition formatRecognitionResponse (recognition : ResultRow) (senderId : string)
    (recipient : UserRow) : JSVal :=
  JObj [("id", JStr (rec_id (base recognition)));
        ("message", JStr (message (base recognition)));
        ("visibility", JStr (visibility (base recognition)));
        ("keywords", parseKeywords (keywords (base recognition)));
        ("createdAt", JNum (created_at (base recognition)));
        ("sender",
          if String.eqb (visibility (base recognition)) "ANONYMOUS" then JNull
          else userObject (JStr senderId) (JStr "Current User")
                          (JStr "current@company.com"));
        ("recipient",
          userObject (JStr (user_id recipient)) (JStr (user_name recipient))
                     (JStr (user_email recipient)))].

(** [row.keywords || '[]']: an array is truthy, be it empty; [null] gives
    way to the text. *)
Definition keywordsOrDefault (k : option JsonText) : JSVal :=
  js_or (fetched k) (JStr "[]").

Definition formatRecognitionRow (row : ResultRow) : Exc JSVal :=
  parsed ← JSON_parse (keywordsOrDefault (keywords (base row)));
  mret (JObj [("id", JStr (rec_id (base row)));
              ("message", JStr (message (base row)));
              ("visibility", JStr (visibility (base row)));
              ("keywords", parsed);
              ("createdAt", JNum (created_at (base row)));
              ("sender",
                match sender_id (base row) with
                | Some s =>
                    if JS.truthy s
                    then userObject (JStr s) (sender_name row) (sender_email row)
                    else JNull
                | None => JNull
                end);
              ("recipient",
                userObject (JStr (recipient_id (base row))) (recipient_name row)
                           (recipient_email row))]).

Definition createRecognition (userId : string) (input : CreateRecognitionInput)
  : M JSVal :=
  lift (validateRecognitionInput input userId);;
  recipient ← validateRecipient (recipientId input);
  let keywords := extractKeywords (Some (input_message input)) in
  recognition ← insertRecognition userId input keywords;
  sendNotifications recognition recipient;;
  ret (formatRecognitionResponse recognition userId recipient).

(** [sql_eq c v] is the SQL comparison [c = v] in a [WHERE]: unknown, and
    so not satisfied, when the column is [NULL]. *)
Definition sql_eq (c : option string) (v : string) : bool :=
  match c with
  | Some x => String.eqb x v
  | None => false
  end.

(** [(r.visibility = 'PUBLIC' OR r.sender_id = $1 OR r.recipient_id = $1)]. *)
Definition viewable (userId : string) (r : RecognitionRow) : bool :=
  String.eqb (visibility r) "PUBLIC"
  || sql_eq (sender_id r) userId
  || String.eqb (recipient_id r) userId.

Definition getRecognitions (userId : string) (filters : RecognitionFilters)
  : M (list JSVal) :=
  let limit := default 20%nat (limit filters) in
  let cond r :=
    viewable userId r
    && match filter_visibility filters with
       | Some v => if JS.truthy v then String.eqb (visibility r) v else true
       | None => true
       end in
  (* the parameter of [AND r.visibility = $2] *)
  match filter_visibility filters with
  | Some v => if JS.truthy v then as_visibility v else ret tt
  | None => ret tt
  end;;
  rows ← select_joined cond;
  lift (mapExc formatRecognitionRow (take limit (order_by_created_at_desc rows))).

(** [type] and [limit] are [None] when the argument is left out. *)
Definition getMyRecognitions (userId : string) (type : option string)
    (limit : option nat) : M (list JSVal) :=
  let type := default "received" type in
  let limit := default 20%nat limit in
  let cond r :=
    if String.eqb type "sent" then sql_eq (sender_id r) userId
    else String.eqb (recipient_id r) userId in
  rows ← select_joined cond;
  lift (mapExc formatRecognitionRow (take limit (order_by_created_at_desc rows))).

Definition getRecognitionById (id : string) (userId : string) : M JSVal :=
  rows ← select_joined (fun r => String.eqb (rec_id r) id && viewable userId r);
  match rows with
  | [] => throw E_NOT_FOUND_OR_DENIED
  | row :: _ => lift (formatRecognitionRow row)
  end.

(** [input[field] !== undefined]. *)
Definition defined {A} (field : option A) : bool :=
  match field with Some _ => true | None => false end.

(** [recognition.sender_id !== userId]. *)
Definition notSender (r : RecognitionRow) (userId : string) : bool :=
  match sender_id r with
  | Some s => negb (String.eqb s userId)
  | None => true
  end.

Definition updateRecognition (userId : string) (input : UpdateInput) : M JSVal :=
  existingRecognition ← select_by_id (update_id input);
  match existingRecognition with
  | [] => throw E_NOT_FOUND
  | recognition :: _ =>
      if notSender (base recognition) userId then throw E_UPDATE_NOT_OWN
      else
        (* if (input.message) { validate; input.keywords = ... } *)
        input_keywords ←
          match update_message input with
          | Some m =>
              if JS.truthy m
              then lift (validateMessage m);;
                   ret (Some (Some (JSON_stringify (extractKeywords (Some m)))))
              else ret (update_keywords input)
          | None => ret (update_keywords input)
          end;
        let updateFields :=
          List.filter snd
            [("message", defined (update_message input));
             ("visibility", defined (update_visibility input));
             ("keywords", defined input_keywords)] in
        if (length updateFields =? 0)%nat then throw E_NO_FIELDS
        else
          (* SET ${updateFields.join(', ')}, updated_at = NOW() *)
          let set r :=
            {| rec_id := rec_id r; sender_id := sender_id r;
               recipient_id := recipient_id r;
               message := default (message r) (update_message input);
               visibility := default (visibility r) (update_visibility input);
               keywords := default (keywords r) input_keywords;
               created_at := created_at r |} in
          result ← update_returning ((fst <$> updateFields) ++ ["updated_at"])
                     (update_visibility input) set (update_id input);
          match result with
          | row :: _ => lift (formatRecognitionRow row)
          | [] => throw E_TYPE_ERROR (* result.rows[0] is undefined *)
          end
  end.

Definition deleteRecognition (id : string) (userId : string) : M bool :=
  existingRecognition ← select_by_id id;
  match existingRecognition with
  | [] => throw E_NOT_FOUND
  | recognition :: _ =>
      if notSender (base recognition) userId then throw E_DELETE_NOT_OWN
      else
        (* UPDATE recognitions SET visibility = $1 WHERE id = $2,
           with ['DELETED', id] *)
        let set r :=
          {| rec_id := rec_id r; sender_id := sender_id r;
             recipient_id := recipient_id r; message := message r;
             visibility := "DELETED"; keywords := keywords r;
             created_at := created_at r |} in
        update_returning ["visibility"] (Some "DELETED") set id;;
        ret true
  end.

Record RecognitionStats : Type := {
  sent : nat;
  received : nat;
  publicSent : nat;
  publicReceived : nat
}.

(** [COUNT( * ) FILTER (WHERE ...)] over the rows
    [WHERE (sender_id = $1 OR recipient_id = $1) AND visibility != 'DELETED'].
    The server reads the literal of the [WHERE] as a value of the enum
    before it counts. *)
Definition countRecognitions (userId : string) : M RecognitionStats :=
  fun w =>
    let rows :=
      List.filter
        (fun r => (sql_eq (sender_id r) userId || String.eqb (recipient_id r) userId)
                  && negb (String.eqb (visibility r) "DELETED"))
        (recognitions w) in
    let count f := length (List.filter f rows) in
    (inr {| sent := count (fun r => sql_eq (sender_id r) userId);
            received := count (fun r => String.eqb (recipient_id r) userId);
            publicSent :=
              count (fun r => sql_eq (sender_id r) userId
                              && String.eqb (visibility r) "PUBLIC");
            publicReceived :=
              count (fun r => String.eqb (recipient_id r) userId
                              && String.eqb (visibility r) "PUBLIC") |}, w).

Definition getRecognitionStats (userId : string) : M RecognitionStats :=
  as_visibility "DELETED";;
  countRecognitions userId.

End RecognitionService.

(** ** UserService: the role hierarchy *)

Module UserService.

(** The own properties of the object literal [roleHierarchy]. *)
Definition roleHierarchy : gmap string Z :=
  {[ "EMPLOYEE" := 1%Z; "MANAGER" := 2%Z; "HR" := 3%Z; "ADMIN" := 4%Z ]}.

(** The names every object literal inherits from [Object.prototype]. *)
Definition objectPrototype : list string :=
  ["constructor"; "__proto__"; "hasOwnProperty"; "isPrototypeOf";
   "propertyIsEnumerable"; "toLocaleString"; "toString"; "valueOf";
   "__defineGetter__"; "__defineSetter__"; "__lookupGetter__";
   "__lookupSetter__"].

(** What [roleHierarchy[role] || 0] evaluates to: a number, or the
    function or object inherited under that name, which is truthy. *)
Inductive Level : Type :=
| LNum (n : Z)
| LInherited (name : string).

Definition level (role : string) : Level :=
  match roleHierarchy !! role with
  | Some n => LNum n
  | None =>
      if JS.arrayIncludes objectPrototype role then LInherited role
      else LNum 0
  end.

(** The string an inherited member converts to in a comparison. *)
Definition primitive (name : string) : string :=
  if String.eqb name "__proto__" then "[object Object]"
  else if String.eqb name "constructor" then "function Object() { [native code] }"
  else "function " +:+ name +:+ "() { [native code] }".

(** [a >= b]: numbers compare as numbers; an inherited member against a
    number converts to [NaN], and the comparison is false; two inherited
    members compare as strings. *)
Definition level_ge (a b : Level) : bool :=
  match a, b with
  | LNum x, LNum y => (y <=? x)%Z
  | LInherited x, LInherited y => String.leb (primitive y) (primitive x)
  | _, _ => false
  end.

Definition hasRole (userRole requiredRole : string) : bool :=
  let userLevel := level userRole in
  let requiredLevel := level requiredRole in
  level_ge userLevel requiredLevel.

Definition canAccessTeamAnalytics (userRole : string) : bool :=
  hasRole userRole "MANAGER".

Definition canAccessOrganizationAnalytics (userRole : string) : bool :=
  hasRole userRole "HR".

End UserService.

(** ** AnalyticsService: the permission checks *)

Module AnalyticsService.

Definition canAccessTeamAnalytics (userRole : string) : bool :=
  let allowedRoles := ["MANAGER"; "HR"; "ADMIN"] in
  JS.arrayIncludes allowedRoles userRole.

Definition canAccessOrganizationAnalytics (userRole : string) : bool :=
  let allowedRoles := ["HR"; "ADMIN"] in
  JS.arrayIncludes allowedRoles userRole.

End AnalyticsService.

(** ** The specification's access policy *)

Module AccessPolicy.

(** [rank(role)] in the specification's words: EMPLOYEE=1, MANAGER=2, HR=3,
    ADMIN=4 and 0 for a role that is not recognised.  The source has no
    such function; the checks of the two services are compared with it. *)
Definition rank (role : string) : Z :=
  if String.eqb role "EMPLOYEE" then 1
  else if String.eqb role "MANAGER" then 2
  else if String.eqb role "HR" then 3
  else if String.eqb role "ADMIN" then 4
  else 0.

End AccessPolicy.

(** ** Observing a run *)

(** The [publish] calls made between two states of the world. *)
Definition published_since (before after : World) : list PublishCall :=
  drop (length (bus_calls before)) (bus_calls after).

(** The recognition a published payload carries, under the field the
    subscription of its channel reads ([payload.recognitionReceived] in the
    resolver of [recognitionReceived], [payload.recognitionCreated] for
    [recognitionCreated]). *)
Definition recognitionOf (c : PublishCall) : JSVal :=
  if String.eqb (channel c) "RECOGNITION_RECEIVED"
  then js_get "recognitionReceived" (payload c)
  else js_get "recognitionCreated" (payload c).

(** [hasField k v]: some object inside [v], at any depth, has a field [k]. *)
Fixpoint hasField (k : string) (v : JSVal) : bool :=
  match v with
  | JArr items => existsb (hasField k) items
  | JObj fields =>
      existsb (fun '(k', v') => String.eqb k' k || hasField k v') fields
  | _ => false
  end.

(** The row [createRecognition] hands to the [INSERT]. *)
Definition persistedRow (userId : string) (input : CreateRecognitionInput)
    (w : World) : RecognitionRow :=
  new_row
    (RecognitionService.insertValues userId input
       (RecognitionService.extractKeywords (Some (input_message input))))
    w.

(** The formatted object [o] shows the columns of the row [r]. *)
Definition describes (r : RecognitionRow) (o : JSVal) : Prop :=
  js_get "id" o = JStr (rec_id r)
  /\ js_get "message" o = JStr (message r)
  /\ js_get "visibility" o = JStr (visibility r)
  /\ js_get "createdAt" o = JNum (created_at r)
  /\ js_get "id" (js_get "recipient" o) = JStr (recipient_id r)
  /\ (sender_id r = None -> js_get "sender" o = JNull).

(** Newest first. *)
Definition newer_first (a b : RecognitionRow) : Prop :=
  (created_at b <= created_at a)%Z.

(** A text of ASCII letters and commas, as the [join] of keywords is. *)
Fixpoint lettersAndCommas (s : string) : bool :=
  match s with
  | EmptyString => true
  | String c s' =>
      (JS.isAsciiLetter c || (JS.code c =? 44)%N) && lettersAndCommas s'
  end.

(** The [publish] calls [sendNotifications] makes for a row, [script]
    giving the outcomes of the calls: none when [JSON.parse] refuses the
    keywords; otherwise one on the recipient channel and then, if that one
    resolved and the row is PUBLIC, one on the public channel. *)
Definition notifications (recognition : ResultRow) (recipient : UserRow)
    (script : list bool) : list PublishCall :=
  match JSON_parse (fetched (keywords (base recognition))) with
  | inl _ => []
  | inr kw =>
      let data := RecognitionService.recognitionData recognition recipient kw in
      {| channel := "RECOGNITION_RECEIVED";
         payload := JObj [("recognitionReceived", data)];
         resolved := next_resolves script |}
      :: (if next_resolves script
             && String.eqb (visibility (base recognition)) "PUBLIC"
          then [{| channel := "RECOGNITION_CREATED";
                   payload := JObj [("recognitionCreated", data)];
                   resolved := next_resolves (tail script) |}]
          else [])
  end.


(** The same world with another script for the bus. *)
Definition with_bus_script (script : list bool) (w : World) : World :=
  {| users := users w; recognitions := recognitions w;
     uuid_seed := uuid_seed w; clock := clock w;
     bus_script := script; bus_calls := bus_calls w |}.

(** ** A small organisation, for the examples *)

Module Sample.

Definition alice : UserRow :=
  {| user_id := "u1"; user_name := "Alice"; user_email := "alice@company.com";
     user_team_id := None; user_role := "EMPLOYEE" |}.

Definition bob : UserRow :=
  {| user_id := "u2"; user_name := "Bob"; user_email := "bob@company.com";
     user_team_id := None; user_role := "MANAGER" |}.

Definition carol : UserRow :=
  {| user_id := "u3"; user_name := "Carol"; user_email := "carol@company.com";
     user_team_id := None; user_role := "HR" |}.

(** No recognition yet, a bus that resolves every call. *)
Definition world : World :=
  {| users := {[ "u1" := alice; "u2" := bob; "u3" := carol ]};
     recognitions := []; uuid_seed := 0; clock := 1000;
     bus_script := []; bus_calls := [] |}.

Definition thanks (v : string) : CreateRecognitionInput :=
  {| recipientId := "u2"; input_message := "Great work on the release";
     input_visibility := v |}.

(** Alice has thanked Bob in private: the table holds "rec-0". *)
Definition world_thanked : World :=
  snd (RecognitionService.createRecognition "u1" (thanks "PRIVATE") world).

Definition no_filter : RecognitionFilters :=
  {| limit := None; filter_visibility := None |}.

(** An update that only names a visibility. *)
Definition set_visibility (i v : string) : UpdateInput :=
  {| update_id := i; update_message := None;
     update_visibility := Some v; update_keywords := None |}.

End Sample.

(** ** The sample data of the schema *)

(** The rows [database/schema.sql] inserts after it has created the tables.
    The three recognitions are inserted by one statement: they take the
    first three ids drawn and the same time. *)
Module Seed.

Definition john : UserRow :=
  {| user_id := "650e8400-e29b-41d4-a716-446655440001"; user_name := "John Doe";
     user_email := "john@company.com";
     user_team_id := Some "550e8400-e29b-41d4-a716-446655440001";
     user_role := "MANAGER" |}.

Definition jane : UserRow :=
  {| user_id := "650e8400-e29b-41d4-a716-446655440002"; user_name := "Jane Smith";
     user_email := "jane@company.com";
     user_team_id := Some "550e8400-e29b-41d4-a716-446655440001";
     user_role := "EMPLOYEE" |}.

Definition bob : UserRow :=
  {| user_id := "650e8400-e29b-41d4-a716-446655440003"; user_name := "Bob Wilson";
     user_email := "bob@company.com";
     user_team_id := Some "550e8400-e29b-41d4-a716-446655440003";
     user_role := "HR" |}.

Definition alice : UserRow :=
  {| user_id := "650e8400-e29b-41d4-a716-446655440004"; user_name := "Alice Brown";
     user_email := "alice@company.com";
     user_team_id := Some "550e8400-e29b-41d4-a716-446655440002";
     user_role := "EMPLOYEE" |}.

Definition recognition (i : nat) (sender : option UserRow) (recipient : UserRow)
    (m v : string) (ks : list string) : RecognitionRow :=
  {| rec_id := uuid_generate_v4 i; sender_id := user_id <$> sender;
     recipient_id := user_id recipient; message := m; visibility := v;
     keywords := Some (JsonOf ks); created_at := 1000 |}.

Definition world : World :=
  {| users := {[ user_id john := john; user_id jane := jane;
                 user_id bob := bob; user_id alice := alice ]};
     recognitions :=
       [recognition 0 (Some john) jane "Excellent work on the project delivery!"
          "PUBLIC" ["excellent"; "work"; "project"; "delivery"];
        recognition 1 (Some jane) alice "Great collaboration on the marketing campaign"
          "PUBLIC" ["great"; "collaboration"; "marketing"; "campaign"];
        recognition 2 None john "Outstanding leadership during the crisis"
          "ANONYMOUS" ["outstanding"; "leadership"; "crisis"]];
     uuid_seed := 3; clock := 1001;
     bus_script := []; bus_calls := [] |}.

(** John praises Jane, in the words of the service's tests. *)
Definition praise (v : string) : CreateRecognitionInput :=
  {| recipientId := user_id jane; input_message := "Great work on the project!";
     input_visibility := v |}.

(** A message whose only keyword is a word of the JSON grammar. *)
Definition so_true (v : string) : CreateRecognitionInput :=
  {| recipientId := user_id jane; input_message := "So true"; input_visibility := v |}.

End Seed.

(** ** The specification's keyword extractor and message rule *)

Module KeywordExtractor.

(** The pieces of [s] between single whitespace characters. *)
Fixpoint pieces (cur : list ascii) (s : string) : list string :=
  match s with
  | EmptyString => [string_of_list_ascii (rev cur)]
  | String c s' =>
      if JS.isWhiteSpace c
      then string_of_list_ascii (rev cur) :: pieces [] s'
      else pieces (c :: cur) s'
  end.

(** "Split on whitespace": the maximal runs of characters that are not
    whitespace, from left to right. *)
Definition tokens (s : string) : list string :=
  List.filter JS.truthy (pieces [] s).

Definition alphabetic (t : string) : bool :=
  forallb JS.isAsciiLetter (list_ascii_of_string t).

Definition stopWord (t : string) : bool :=
  JS.arrayIncludes RecognitionService.stopWords t.

(** A token is kept when (a) it is longer than 3 characters, (b) it is
    alphabetic and (c) it is no stop word. *)
Definition kept (t : string) : bool :=
  (3 <? String.length t)%nat && alphabetic t && negb (stopWord t).

(** The extraction in the specification's words: lowercase, split, keep,
    first five in the original order; nothing for a missing message. *)
Definition extract (message : option string) : list string :=
  match message with
  | None => []
  | Some m => take 5 (List.filter kept (tokens (JS.toLowerCase m)))
  end.

End KeywordExtractor.

Module InputValidator.

(** The denylist of the message rule: the lowercased message contains one
    of the blocked substrings. *)
Definition blocked (m : string) : bool :=
  existsb (JS.includes (JS.toLowerCase m))
          ["spam"; "offensive"; "inappropriate"; "hate"].

End InputValidator.

(** ** Subscriptions and webhook validation *)

(** [v === s] for a string [s]. *)
Definition js_is_string (v : JSVal) (s : string) : bool :=
  match v with
  | JStr x => String.eqb x s
  | _ => false
  end.

(** The member read [v.k] as an expression: it throws on [undefined] and
    [null], and reads [undefined] from a value that has no such field. *)
Definition member (k : string) (v : JSVal) : Exc JSVal :=
  match v with
  | JUndefined | JNull => inl E_TYPE_ERROR
  | _ => inr (js_get k v)
  end.

Module Subscription.

(** The [resolve] of [recognitionReceived]: only the intended recipient is
    sent the payload, anyone else [null]. *)
Definition recognitionReceived (payload : JSVal) (userId : string) : Exc JSVal :=
  received ← member "recognitionReceived" payload;
  recipient ← member "recipient" received;
  recipient_id ← member "id" recipient;
  if js_is_string recipient_id userId then inr received else inr JNull.

End Subscription.

Record ValidationResult : Type := {
  isValid : bool;
  errors : list string
}.

Module Validation.

Definition validateSlackEvent (event : JSVal) : ValidationResult :=
  if negb (js_truthy event)
  then {| isValid := false; errors := ["Event is required"] |}
  else
    let errors := [] in
    let errors :=
      if negb (js_truthy (js_get "type" event))
      then errors ++ ["Event type is required"] else errors in
    let errors :=
      if js_is_string (js_get "type" event) "message"
         && negb (js_truthy (js_get "text" event))
      then errors ++ ["Message text is required for message events"] else errors in
    {| isValid := (length errors =? 0)%nat; errors := errors |}.

Definition validateTeamsEvent (event : JSVal) : ValidationResult :=
  if negb (js_truthy event)
  then {| isValid := false; errors := ["Event is required"] |}
  else
    let errors := [] in
    let errors :=
      if negb (js_truthy (js_get "type" event))
      then errors ++ ["Event type is required"] else errors in
    let errors :=
      if js_is_string (js_get "type" event) "message"
         && negb (js_truthy (js_get "text" event))
      then errors ++ ["Message text is required for message events"] else errors in
    {| isValid := (length errors =? 0)%nat; errors := errors |}.

End Validation.

(** * Properties *)

(** ** Keyword extraction *)

Section Keywords.

Import KeywordExtractor.

Lemma filter_implied {A} (f g : A -> bool) (l : list A) :
  (forall x, f x = true -> g x = true) ->
  List.filter f (List.filter g l) = List.filter f l.
Proof.
  intros Himp. induction l as [|x l IH]; simpl; [reflexivity|].
  destruct (g x) eqn:Hg; simpl.
  - rewrite IH. reflexivity.
  - destruct (f x) eqn:Hf; [|exact IH].
    apply Himp in Hf. congruence.
Qed.

(** The empty pieces that [split] leaves at the ends are the only
    difference between the pieces of the source and the tokens. *)
Lemma split_ws_go_tokens s : forall cur in_sep,
  (in_sep = true -> cur = []) ->
  List.filter JS.truthy (JS.split_ws_go cur in_sep s)
  = List.filter JS.truthy (pieces cur s).
Proof.
  induction s as [|c s IH]; intros cur in_sep Hsep; simpl; [reflexivity|].
  destruct (JS.isWhiteSpace c).
  - destruct in_sep.
    + rewrite (Hsep eq_refl). simpl. apply IH. reflexivity.
    + simpl. rewrite (IH [] true (fun _ => eq_refl)). reflexivity.
  - apply IH. discriminate.
Qed.

Lemma split_ws_tokens s :
  List.filter JS.truthy (JS.split_ws s) = tokens s.
Proof. apply split_ws_go_tokens. discriminate. Qed.

Lemma allLetters_alphabetic t : JS.allLetters t = alphabetic t.
Proof.
  unfold alphabetic. induction t as [|c t IH]; simpl; [reflexivity|].
  rewrite IH. reflexivity.
Qed.

(** The filter of the source is the rule (a), (b), (c). *)
Lemma source_filter_kept word :
  (3 <? String.length word)%nat
  && negb (JS.arrayIncludes RecognitionService.stopWords word)
  && JS.testLetters word
  = kept word.
Proof.
  unfold kept, stopWord. rewrite <- allLetters_alphabetic.
  destruct word as [|c word]; [reflexivity|].
  unfold JS.testLetters. 
  destruct (3 <? _)%nat, (JS.arrayIncludes _ _), (JS.allLetters _); reflexivity.
Qed.

Lemma kept_truthy t : kept t = true -> JS.truthy t = true.
Proof. destruct t; [discriminate | reflexivity]. Qed.

Lemma filter_ext_eq {A} (f g : A -> bool) (l : list A) :
  (forall x, f x = g x) -> List.filter f l = List.filter g l.
Proof.
  intros E. induction l as [|x l IH]; simpl; [reflexivity|].
  rewrite E, IH. reflexivity.
Qed.

Lemma extractKeywords_extract message :
  RecognitionService.extractKeywords message = extract message.
Proof.
  destruct message as [m|]; [|reflexivity].
  unfold RecognitionService.extractKeywords, extract.
  destruct m as [|c m]; [reflexivity|].
  cbn [JS.truthy negb]. f_equal.
  rewrite (filter_ext_eq _ kept) by apply source_filter_kept.
  rewrite <- split_ws_tokens.
  symmetry. apply filter_implied, kept_truthy.
Qed.

End Keywords.

(** C8.  Keyword extraction is the specification's algorithm: for every
    message, present or not, [extractKeywords] returns the first five, in
    their order in the message and with repetitions kept, of the
    whitespace-separated tokens of the lowercased message that are longer
    than 3 characters, alphabetic and no stop word; it returns nothing for
    an empty or missing message; and on the seven superlatives of the
    specification it returns the first five of them, left to right. *)
Theorem extractKeywords_spec :
  (forall message : option string,
     RecognitionService.extractKeywords message = KeywordExtractor.extract message)
  /\ RecognitionService.extractKeywords None = []
  /\ RecognitionService.extractKeywords (Some "") = []
  /\ RecognitionService.extractKeywords
       (Some "excellent outstanding amazing fantastic wonderful brilliant incredible")
     = ["excellent"; "outstanding"; "amazing"; "fantastic"; "wonderful"]
  /\ RecognitionService.extractKeywords (Some "great team great work great people")
     = ["great"; "team"; "great"; "work"; "great"].
Proof.
  split; [exact extractKeywords_extract|].
  repeat split; reflexivity.
Qed.

(** ** Message validation *)

Section Messages.

Import RecognitionService InputValidator.

Lemma required_test m :
  negb (JS.truthy m) || (String.length (JS.trim m) =? 0)%nat
  = (String.length (JS.trim m) =? 0)%nat.
Proof. destruct m; reflexivity. Qed.

(** The four outcomes of [validateMessage], in the order of its tests. *)
Lemma validateMessage_cases m :
  validateMessage m =
    if (String.length (JS.trim m) =? 0)%nat then inl E_MESSAGE_REQUIRED
    else if (500 <? String.length m)%nat then inl E_MESSAGE_TOO_LONG
    else if blocked m then inl E_INAPPROPRIATE
    else inr tt.
Proof.
  unfold validateMessage, blocked. rewrite required_test. cbn [existsb].
  destruct (_ =? 0)%nat; [reflexivity|].
  destruct (500 <? _)%nat; [reflexivity|].
  destruct (JS.includes _ "spam"); [reflexivity|].
  rewrite !orb_false_r, !orb_false_l. reflexivity.
Qed.

Lemma validateMessage_ok_iff m :
  validateMessage m = inr tt
  <-> (1 <= String.length (JS.trim m))%nat
      /\ (String.length m <= 500)%nat
      /\ blocked m = false.
Proof.
  rewrite validateMessage_cases.
  destruct (Nat.eqb_spec (String.length (JS.trim m)) 0);
    [split; [discriminate | lia]|].
  destruct (Nat.ltb_spec 500 (String.length m));
    [split; [discriminate | lia]|].
  destruct (blocked m); split; try discriminate; try tauto.
  - intros (_ & _ & ?). discriminate.
  - intros _. repeat split; lia.
Qed.

Lemma validateMessage_error_kind m e :
  validateMessage m = inl e -> errorKind e = Some ValidationError.
Proof.
  rewrite validateMessage_cases.
  repeat match goal with |- context [if ?b then _ else _] => destruct b end;
    intros [= <-]; reflexivity.
Qed.

(** A rejected message ends [createRecognition] at once. *)
Lemma createRecognition_bad_message userId input w e :
  validateMessage (input_message input) = inl e ->
  createRecognition userId input w = (inl e, w).
Proof.
  intros H. unfold createRecognition, validateRecognitionInput.
  unfold mbind, M_bind, bind, lift, Exc_bind. rewrite H. reflexivity.
Qed.

End Messages.

(** C9, as the source has it.  [validateMessage] accepts a message exactly
    when it is not empty after trimming, its length before trimming is at
    most 500 and its lowercased text contains no blocked substring.  So a
    message of exactly 500 characters that is not blank and not blocked is
    accepted; a message of more than 500 characters (501 for one) fails
    with a ValidationError; so does a message that is empty after trimming,
    with "Message is required"; and a rejected message makes
    [createRecognition] fail with that error, the world untouched. *)
Theorem validateMessage_rule (m : string) :
  (RecognitionService.validateMessage m = inr tt
   <-> (1 <= String.length (JS.trim m))%nat
       /\ (String.length m <= 500)%nat
       /\ InputValidator.blocked m = false)
  /\ (String.length m = 500%nat ->
      (1 <= String.length (JS.trim m))%nat ->
      InputValidator.blocked m = false ->
      RecognitionService.validateMessage m = inr tt)
  /\ ((500 < String.length m)%nat ->
      exists e, RecognitionService.validateMessage m = inl e
                /\ errorKind e = Some ValidationError)
  /\ (String.length (JS.trim m) = 0%nat ->
      RecognitionService.validateMessage m = inl E_MESSAGE_REQUIRED)
  /\ (forall e, RecognitionService.validateMessage m = inl e ->
        errorKind e = Some ValidationError
        /\ forall userId input w,
             input_message input = m ->
             RecognitionService.createRecognition userId input w = (inl e, w)).
Proof.
  split; [apply validateMessage_ok_iff|].
  split; [intros; apply validateMessage_ok_iff; repeat split; [assumption|lia|assumption]|].
  split.
  { intros Hlen.
    destruct (RecognitionService.validateMessage m) as [e|[]] eqn:E.
    - exists e. split; [reflexivity|]. eapply validateMessage_error_kind, E.
    - apply validateMessage_ok_iff in E. lia. }
  split.
  { intros H0. rewrite validateMessage_cases, H0. reflexivity. }
  intros e E. split; [eapply validateMessage_error_kind, E|].
  intros userId input w <-. apply createRecognition_bad_message, E.
Qed.

(** The rule at work: 500 letters pass, 501 do not, a padded single letter
    does not either, and blanks are no message. *)
Lemma validateMessage_rule_witness :
  RecognitionService.validateMessage (JS.repeat "a" 500) = inr tt
  /\ (exists e, RecognitionService.validateMessage (JS.repeat "a" 501) = inl e
                /\ errorKind e = Some ValidationError)
  /\ RecognitionService.validateMessage "   " = inl E_MESSAGE_REQUIRED.
Proof.
  split; [|split].
  - apply (validateMessage_rule (JS.repeat "a" 500)); vm_compute; [reflexivity | lia | reflexivity].
  - apply (validateMessage_rule (JS.repeat "a" 501)). vm_compute. lia.
  - apply (validateMessage_rule "   "). reflexivity.
Defined.

(** C9, counterexample to the claim as it was stated: a letter followed by
    500 spaces is one character long after trimming and contains nothing
    blocked, yet it is rejected as too long. *)
Lemma trimmed_length_is_not_what_is_limited :
  let m := String "a" (JS.repeat " " 500) in
  (1 <= String.length (JS.trim m) <= 500)%nat
  /\ InputValidator.blocked m = false
  /\ RecognitionService.validateMessage m = inl E_MESSAGE_TOO_LONG
  /\ RecognitionService.validateMessage m <> inr tt.
Proof.
  vm_compute. repeat split; try lia; discriminate.
Qed.

(** ** Self-recognition *)

Section SelfRecognition.

Import RecognitionService.

(** What [createRecognition] throws when the three checks of the input do
    not all pass: the error of the first check that fails. *)
Lemma createRecognition_invalid userId input w e :
  validateRecognitionInput input userId = inl e ->
  createRecognition userId input w = (inl e, w).
Proof.
  intros H. unfold createRecognition.
  unfold mbind at 1. unfold M_bind, bind, lift. rewrite H. reflexivity.
Qed.

Lemma validateVisibility_error_kind v e :
  validateVisibility v = inl e -> errorKind e = Some ValidationError.
Proof.
  unfold validateVisibility. destruct (negb _); intros [= <-]. reflexivity.
Qed.

Lemma validate_self userId input :
  recipientId input = userId ->
  exists e,
    validateRecognitionInput input userId = inl e
    /\ (errorKind e = Some ConflictError \/ errorKind e = Some ValidationError)
    /\ (errorKind e = Some ConflictError
        <-> validateMessage (input_message input) = inr tt
            /\ validateVisibility (input_visibility input) = inr tt
            /\ userId <> "")
    /\ (errorKind e = Some ConflictError <-> e = E_SELF_RECOGNITION).
Proof.
  intros Hself. subst userId. unfold validateRecognitionInput, mbind, Exc_bind.
  destruct (validateMessage _) as [e|[]] eqn:Em.
  { exists e. pose proof (validateMessage_error_kind _ _ Em) as K.
    split; [reflexivity|]. split; [right; exact K|]. rewrite K.
    split; [split; [|intros (? & _)]; discriminate|].
    split; [discriminate | intros ->; discriminate]. }
  destruct (validateVisibility _) as [e|[]] eqn:Ev.
  { exists e. pose proof (validateVisibility_error_kind _ _ Ev) as K.
    split; [reflexivity|]. split; [right; exact K|]. rewrite K.
    split; [split; [|intros (_ & ? & _)]; discriminate|].
    split; [discriminate | intros ->; discriminate]. }
  unfold validateRecipientSenderID. rewrite String.eqb_refl.
  destruct (recipientId input) as [|c i]; cbn [JS.truthy negb].
  - exists E_RECIPIENT_REQUIRED.
    split; [reflexivity|]. split; [right; reflexivity|].
    split; [split; [discriminate | intros (_ & _ & ?); congruence]|].
    split; discriminate.
  - exists E_SELF_RECOGNITION.
    split; [reflexivity|]. split; [left; reflexivity|].
    split; [|split; reflexivity].
    split; [intros _ | reflexivity]. repeat split. discriminate.
Qed.

End SelfRecognition.

(** C7, as the source has it.  A [createRecognition] call whose recipient is
    the sender always fails, and before anything is persisted or published:
    the world is untouched.  The error is the one of the first failing
    check, in the order message, visibility, recipient: it is the
    self-recognition ConflictError exactly when the message and the
    visibility are valid and the id is not empty, and a ValidationError
    otherwise. *)
Theorem self_recognition_fails (userId : string) (input : CreateRecognitionInput)
    (w : World) :
  recipientId input = userId ->
  exists e,
    RecognitionService.createRecognition userId input w = (inl e, w)
    /\ (errorKind e = Some ConflictError \/ errorKind e = Some ValidationError)
    /\ (errorKind e = Some ConflictError
        <-> RecognitionService.validateMessage (input_message input) = inr tt
            /\ RecognitionService.validateVisibility (input_visibility input) = inr tt
            /\ userId <> "")
    /\ (errorKind e = Some ConflictError <-> e = E_SELF_RECOGNITION).
Proof.
  intros Hself. destruct (validate_self userId input Hself) as (e & He & Hrest).
  exists e. split; [apply createRecognition_invalid, He | exact Hrest].
Qed.

Lemma self_recognition_fails_witness :
  exists e,
    RecognitionService.createRecognition "u2" (Sample.thanks "PUBLIC") Sample.world
    = (inl e, Sample.world)
    /\ errorKind e = Some ConflictError.
Proof.
  destruct (self_recognition_fails "u2" (Sample.thanks "PUBLIC") Sample.world eq_refl)
    as (e & Hrun & _ & Hiff & _).
  exists e. split; [exact Hrun|]. apply Hiff.
  split; [reflexivity|]. split; [reflexivity | discriminate].
Defined.

(** C7, counterexample to the claim as it was stated: with an empty message
    the self-recognition is refused with "Message is required", a
    ValidationError, and not with the ConflictError. *)
Lemma self_recognition_with_empty_message :
  RecognitionService.createRecognition "u1"
    {| recipientId := "u1"; input_message := ""; input_visibility := "PUBLIC" |}
    Sample.world
  = (inl E_MESSAGE_REQUIRED, Sample.world)
  /\ errorKind E_MESSAGE_REQUIRED = Some ValidationError
  /\ errorKind E_MESSAGE_REQUIRED <> Some ConflictError.
Proof.
  split; [reflexivity|]. split; [reflexivity | discriminate].
Qed.

(** ** Role hierarchy *)

Section Roles.

Import AccessPolicy.

Lemma level_unknown r :
  r <> "EMPLOYEE" -> r <> "MANAGER" -> r <> "HR" -> r <> "ADMIN" ->
  UserService.level r = UserService.LNum 0
  \/ UserService.level r = UserService.LInherited r.
Proof.
  intros H1 H2 H3 H4. unfold UserService.level, UserService.roleHierarchy.
  rewrite !lookup_insert_ne by congruence.
  rewrite lookup_singleton_ne by congruence.
  destruct (JS.arrayIncludes _ _); auto.
Qed.

Lemma rank_unknown r :
  r <> "EMPLOYEE" -> r <> "MANAGER" -> r <> "HR" -> r <> "ADMIN" ->
  rank r = 0%Z.
Proof.
  intros H1 H2 H3 H4. unfold rank.
  repeat match goal with
         | |- context [String.eqb r ?s] =>
             destruct (String.eqb_spec r s); [congruence|]
         end.
  reflexivity.
Qed.

Lemma arrayIncludes_unknown r l :
  Forall (fun x => r <> x) l -> JS.arrayIncludes l r = false.
Proof.
  unfold JS.arrayIncludes. induction 1 as [|x l Hx _ IH]; simpl; [reflexivity|].
  rewrite IH. destruct (String.eqb_spec r x); [congruence | reflexivity].
Qed.

End Roles.

(** C4.  For every role string, the team check of both services says
    whether the role ranks at least as high as MANAGER, and the organization
    check whether it ranks at least as high as HR, in the ranking EMPLOYEE 1,
    MANAGER 2, HR 3, ADMIN 4 and 0 for any other string. *)
Theorem analytics_checks_follow_rank (r : string) :
  UserService.canAccessTeamAnalytics r
  = (AccessPolicy.rank "MANAGER" <=? AccessPolicy.rank r)%Z
  /\ UserService.canAccessOrganizationAnalytics r
     = (AccessPolicy.rank "HR" <=? AccessPolicy.rank r)%Z
  /\ AnalyticsService.canAccessTeamAnalytics r
     = (AccessPolicy.rank "MANAGER" <=? AccessPolicy.rank r)%Z
  /\ AnalyticsService.canAccessOrganizationAnalytics r
     = (AccessPolicy.rank "HR" <=? AccessPolicy.rank r)%Z.
Proof.
  destruct (decide (r = "EMPLOYEE")) as [->|H1]; [repeat split; reflexivity|].
  destruct (decide (r = "MANAGER")) as [->|H2]; [repeat split; reflexivity|].
  destruct (decide (r = "HR")) as [->|H3]; [repeat split; reflexivity|].
  destruct (decide (r = "ADMIN")) as [->|H4]; [repeat split; reflexivity|].
  rewrite (rank_unknown r H1 H2 H3 H4).
  unfold UserService.canAccessTeamAnalytics, UserService.canAccessOrganizationAnalytics,
    UserService.hasRole, AnalyticsService.canAccessTeamAnalytics,
    AnalyticsService.canAccessOrganizationAnalytics.
  rewrite !arrayIncludes_unknown by (repeat constructor; assumption).
  change (UserService.level "MANAGER") with (UserService.LNum 2).
  change (UserService.level "HR") with (UserService.LNum 3).
  destruct (level_unknown r H1 H2 H3 H4) as [-> | ->]; repeat split; reflexivity.
Qed.

(** ** Arrays of keywords as JSON texts *)

Section KeywordArrays.

Import KeywordExtractor.

Lemma lowerChar_idempotent c : JS.lowerChar (JS.lowerChar c) = JS.lowerChar c.
Proof. destruct c as [[] [] [] [] [] [] [] []]; reflexivity. Qed.

Lemma toLowerCase_idempotent s : JS.toLowerCase (JS.toLowerCase s) = JS.toLowerCase s.
Proof.
  induction s as [|c s IH]; simpl; [reflexivity|].
  rewrite lowerChar_idempotent, IH. reflexivity.
Qed.

Lemma toLowerCase_truthy s : JS.truthy (JS.toLowerCase s) = JS.truthy s.
Proof. destruct s; reflexivity. Qed.

(** A string all of whose characters are their own lowercase. *)
Lemma toLowerCase_fixed s :
  Forall (fun c => JS.lowerChar c = c) (list_ascii_of_string s) ->
  JS.toLowerCase s = s.
Proof.
  induction s as [|c s IH]; simpl; [reflexivity|].
  intros H. inversion H as [|? ? Hc Hs]; subst. rewrite Hc, IH by assumption.
  reflexivity.
Qed.

Lemma lowered_chars s :
  Forall (fun c => JS.lowerChar c = c) (list_ascii_of_string (JS.toLowerCase s)).
Proof.
  induction s as [|c s IH]; simpl; constructor; [apply lowerChar_idempotent | exact IH].
Qed.

(** The pieces of a string are made of its characters. *)
Lemma pieces_chars (P : ascii -> Prop) s : forall cur,
  Forall P cur -> Forall P (list_ascii_of_string s) ->
  Forall (fun t => Forall P (list_ascii_of_string t)) (pieces cur s).
Proof.
  induction s as [|c s IH]; intros cur Hcur Hs; simpl.
  - constructor; [|constructor].
    rewrite list_ascii_of_string_of_list_ascii. apply Forall_rev, Hcur.
  - simpl in Hs. inversion Hs as [|? ? Hc Hs']; subst.
    destruct (JS.isWhiteSpace c).
    + constructor; [|apply IH; [constructor | assumption]].
      rewrite list_ascii_of_string_of_list_ascii. apply Forall_rev, Hcur.
    + apply IH; [constructor|]; assumption.
Qed.

Lemma Forall_filter_bool {A} (P : A -> Prop) (f : A -> bool) (l : list A) :
  Forall P l -> Forall P (List.filter f l).
Proof.
  induction 1 as [|x l Hx _ IH]; simpl; [constructor|].
  destruct (f x); [constructor|]; assumption.
Qed.

Lemma Forall_filter_true {A} (f : A -> bool) (l : list A) :
  Forall (fun x => f x = true) (List.filter f l).
Proof.
  induction l as [|x l IH]; simpl; [constructor|].
  destruct (f x) eqn:E; [constructor|]; assumption.
Qed.

(** The keywords are words: letters and nothing else. *)
Lemma extractKeywords_letters m :
  Forall (fun k => JS.allLetters k = true)
         (RecognitionService.extractKeywords (Some m)).
Proof.
  rewrite extractKeywords_extract. unfold extract. apply Forall_take.
  pose proof (Forall_filter_true kept (tokens (JS.toLowerCase m))) as H.
  eapply Forall_impl; [exact H|]. intros k Hk. cbv beta in Hk.
  unfold kept in Hk. rewrite <- allLetters_alphabetic in Hk.
  apply andb_prop in Hk as [Hk _]. apply andb_prop in Hk as [_ Hk]. exact Hk.
Qed.

(** An array of strings converts to the [join] of its items. *)
Lemma toString_strings ks : toString (js_strings ks) = JS.join "," ks.
Proof.
  unfold js_strings. cbn [toString]. f_equal.
  induction ks as [|k ks IH]; [reflexivity|].
  cbn [fmap list_fmap List.map]. f_equal. exact IH.
Qed.

Lemma lettersAndCommas_app a b :
  lettersAndCommas (a +:+ b) = lettersAndCommas a && lettersAndCommas b.
Proof.
  induction a as [|c a IH]; [reflexivity|].
  change (String c a +:+ b) with (String c (a +:+ b)).
  cbn [lettersAndCommas]. rewrite IH, andb_assoc. reflexivity.
Qed.

Lemma allLetters_lettersAndCommas k :
  JS.allLetters k = true -> lettersAndCommas k = true.
Proof.
  induction k as [|c k IH]; [reflexivity|]. cbn [JS.allLetters lettersAndCommas].
  intros H. apply andb_prop in H as [Hc Hk]. rewrite Hc, (IH Hk). reflexivity.
Qed.

Lemma join_lettersAndCommas ks :
  Forall (fun k => JS.allLetters k = true) ks ->
  lettersAndCommas (JS.join "," ks) = true.
Proof.
  induction 1 as [|k ks Hk _ IH]; [reflexivity|]. cbn [JS.join].
  destruct ks as [|k' ks]; [apply allLetters_lettersAndCommas, Hk|].
  rewrite lettersAndCommas_app, (allLetters_lettersAndCommas k Hk).
  change ("," +:+ JS.join "," (k' :: ks)) with (String "," (JS.join "," (k' :: ks))).
  cbn [lettersAndCommas]. rewrite IH. reflexivity.
Qed.

(** What the character tests of the grammar say of a letter or a comma. *)
Lemma letter_or_comma_code c :
  JS.isAsciiLetter c || (JS.code c =? 44)%N = true ->
  (65 <= JS.code c <= 90 \/ 97 <= JS.code c <= 122 \/ JS.code c = 44)%N.
Proof.
  unfold JS.isAsciiLetter. cbv zeta.
  rewrite !orb_true_iff, !andb_true_iff, !N.leb_le, N.eqb_eq. tauto.
Qed.

Lemma skip_lettersAndCommas s : lettersAndCommas s = true -> JSON.skip s = s.
Proof.
  destruct s as [|c s]; [reflexivity|]. cbn [lettersAndCommas JSON.skip].
  intros H. apply andb_prop in H as [Hc _]. apply letter_or_comma_code in Hc.
  unfold JSON.isWs. cbv zeta.
  repeat match goal with
         | |- context [(JS.code c =? ?k)%N] =>
             destruct (N.eqb_spec (JS.code c) k); [lia|]
         end.
  reflexivity.
Qed.

(** A word of the grammar is read from a text of letters and commas, with
    nothing after it, exactly when the text is that word. *)
Lemma literal_outcome word (v : JSVal) s :
  lettersAndCommas s = true ->
  match JSON.literal word v s with
  | Some (x, rest) =>
      match JSON.skip rest with
      | EmptyString => inr x
      | String _ _ => inl E_JSON_SYNTAX
      end
  | None => inl E_JSON_SYNTAX
  end = if String.eqb s word then (inr v : Exc JSVal) else inl E_JSON_SYNTAX.
Proof.
  unfold JSON.literal. revert s. induction word as [|a word IH]; intros s Hs.
  - cbn [JSON.after]. rewrite (skip_lettersAndCommas s Hs).
    destruct s; reflexivity.
  - destruct s as [|b s]; [reflexivity|]. cbn [JSON.after String.eqb].
    cbn [lettersAndCommas] in Hs. apply andb_prop in Hs as [_ Hs].
    rewrite (Ascii.eqb_sym b a). destruct (Ascii.eqb a b); [|reflexivity].
    apply IH, Hs.
Qed.

Lemma code_inj c n : JS.code c = n -> c = ascii_of_N n.
Proof. intros <-. unfold JS.code. symmetry. apply ascii_N_embedding. Qed.

Lemma first_differs c r (word : string) a :
  c <> a -> String.eqb (String c r) (String a word) = false.
Proof.
  intros H. cbn [String.eqb]. destruct (Ascii.eqb_spec c a); [contradiction | reflexivity].
Qed.

(** [JSON.parse] on a text of letters and commas: the three words of the
    grammar are values, and any other such text is no JSON. *)
Lemma parse_lettersAndCommas t :
  lettersAndCommas t = true ->
  JSON.parse t =
    if String.eqb t "true" then inr (JBool true)
    else if String.eqb t "false" then inr (JBool false)
    else if String.eqb t "null" then inr JNull
    else inl E_JSON_SYNTAX.
Proof.
  intros Hp. unfold JSON.parse.
  destruct t as [|c r]; [reflexivity|].
  pose proof Hp as Hp'. cbn [lettersAndCommas] in Hp'. apply andb_prop in Hp' as [Hc _].
  apply letter_or_comma_code in Hc.
  replace (2 * String.length (String c r) + 2)%nat
    with (S (2 * String.length r + 3)) by (cbn [String.length]; lia).
  cbn [JSON.value]. rewrite (skip_lettersAndCommas _ Hp). cbv zeta.
  destruct (N.eqb_spec (JS.code c) 91); [lia|].
  destruct (N.eqb_spec (JS.code c) 123); [lia|].
  destruct (N.eqb_spec (JS.code c) 34); [lia|].
  destruct (N.eqb_spec (JS.code c) 116) as [E|Nt].
  { apply code_inj in E. subst c.
    etransitivity; [exact (literal_outcome "true" (JBool true) _ Hp) | reflexivity]. }
  destruct (N.eqb_spec (JS.code c) 102) as [E|Nf].
  { apply code_inj in E. subst c.
    etransitivity; [exact (literal_outcome "false" (JBool false) _ Hp) | reflexivity]. }
  destruct (N.eqb_spec (JS.code c) 110) as [E|Nn].
  { apply code_inj in E. subst c.
    etransitivity; [exact (literal_outcome "null" JNull _ Hp) | reflexivity]. }
  rewrite !first_differs by (intros ->; compute in *; congruence).
  unfold JSON.number. cbn [snd fst].
  destruct (N.eqb_spec (JS.code c) 45); [lia|]. cbn [snd fst].
  unfold JSON.digit. cbv zeta.
  destruct (N.leb_spec 48 (JS.code c)); destruct (N.leb_spec (JS.code c) 57);
    cbn [andb]; try reflexivity; lia.
Qed.

(** [JSON.parse] on the keywords of a row, which the driver returns as an
    array: the array is converted to the text of its items, joined by
    commas, and no such text is JSON but the three words of the grammar. *)
Lemma JSON_parse_keywords ks :
  Forall (fun k => JS.allLetters k = true) ks ->
  JSON_parse (js_strings ks) =
    if String.eqb (JS.join "," ks) "true" then inr (JBool true)
    else if String.eqb (JS.join "," ks) "false" then inr (JBool false)
    else if String.eqb (JS.join "," ks) "null" then inr JNull
    else inl E_JSON_SYNTAX.
Proof.
  intros H. unfold JSON_parse. rewrite toString_strings.
  apply parse_lettersAndCommas, join_lettersAndCommas, H.
Qed.

(** So what is parsed from keywords is a boolean or [null]. *)
Lemma JSON_parse_keywords_flat ks kw :
  Forall (fun k => JS.allLetters k = true) ks ->
  JSON_parse (js_strings ks) = inr kw ->
  kw = JBool true \/ kw = JBool false \/ kw = JNull.
Proof.
  intros H. rewrite (JSON_parse_keywords ks H).
  repeat match goal with |- context [if ?b then _ else _] => destruct b end;
    intros [= <-]; auto.
Qed.

End KeywordArrays.

(** ** Creation and fanout *)

Section Creation.

Import RecognitionService.

Lemma published_since_app w w' calls :
  bus_calls w' = bus_calls w ++ calls -> published_since w w' = calls.
Proof. intros E. unfold published_since. rewrite E. apply drop_app_length. Qed.

(** [sendNotifications] never throws and leaves the tables alone.  When
    [JSON.parse] refuses the keywords of the row, nothing is published;
    otherwise it publishes first to the recipient channel, then, if that
    call resolved and the row is PUBLIC, to the public channel. *)
Lemma sendNotifications_run r u w :
  let w' := snd (sendNotifications r u w) in
  fst (sendNotifications r u w) = inr tt
  /\ users w' = users w
  /\ recognitions w' = recognitions w
  /\ bus_calls w' = bus_calls w ++ notifications r u (bus_script w).
Proof.
  unfold sendNotifications, try_catch, notifications.
  unfold mbind, M_bind, bind, lift, publish, mret, ret.
  destruct (JSON_parse (fetched (keywords (base r)))) as [e|kw].
  { cbn. rewrite app_nil_r. auto. }
  destruct (next_resolves (bus_script w)) eqn:E1;
    destruct (next_resolves (tail (bus_script w))) eqn:E2;
    destruct (String.eqb (visibility (base r)) "PUBLIC") eqn:E3;
    cbn; rewrite ?E1, ?E2; cbn; rewrite <- ?app_assoc; auto.
Qed.

(** A visibility that passed [validateVisibility] is a label of the enum:
    the server takes it. *)
Lemma as_visibility_valid v w :
  validateVisibility v = inr tt -> as_visibility v w = (inr tt, w).
Proof.
  unfold validateVisibility, as_visibility, visibility_labels.
  destruct (JS.arrayIncludes _ v); [reflexivity | discriminate].
Qed.

Lemma validateRecognitionInput_visibility input userId :
  validateRecognitionInput input userId = inr tt ->
  validateVisibility (input_visibility input) = inr tt.
Proof.
  unfold validateRecognitionInput, mbind, Exc_bind.
  destruct (validateMessage _) as [?|[]]; [discriminate|].
  destruct (validateVisibility _) as [?|[]]; [discriminate | reflexivity].
Qed.

Lemma insertRecognition_run userId input ks w :
  validateVisibility (input_visibility input) = inr tt ->
  insertRecognition userId input ks w = append_row (insertValues userId input ks) w.
Proof.
  intros Hv. unfold insertRecognition, insert_returning, insertValues.
  unfold mbind, M_bind, bind.
  rewrite (as_visibility_valid _ w Hv). reflexivity.
Qed.

(** A [createRecognition] call that passes validation and finds its
    recipient inserts the row, notifies and answers. *)
Lemma createRecognition_steps userId input w recipient :
  validateRecognitionInput input userId = inr tt ->
  users w !! recipientId input = Some recipient ->
  let keywords := extractKeywords (Some (input_message input)) in
  let w1 := snd (append_row (insertValues userId input keywords) w) in
  let row := persistedRow userId input w in
  createRecognition userId input w
  = (inr (formatRecognitionResponse (plain row) userId recipient),
     snd (sendNotifications (plain row) recipient w1)).
Proof.
  intros Hv Hu. cbv zeta. unfold createRecognition.
  unfold mbind at 1 2 3. unfold M_bind, bind, lift at 1. rewrite Hv.
  unfold validateRecipient, select_user.
  unfold mbind at 1. unfold M_bind, bind. rewrite Hu.
  unfold ret at 1.
  rewrite (insertRecognition_run _ _ _ _ (validateRecognitionInput_visibility _ _ Hv)).
  unfold append_row at 1. fold (persistedRow userId input w). cbn [snd append_row].
  fold (persistedRow userId input w).
  unfold mbind, M_bind, bind.
  pose proof (sendNotifications_run (plain (persistedRow userId input w)) recipient
                {| users := users w;
                   recognitions := recognitions w ++ [persistedRow userId input w];
                   uuid_seed := S (uuid_seed w); clock := (clock w + 1)%Z;
                   bus_script := bus_script w; bus_calls := bus_calls w |})
    as (Hok & _).
  destruct (sendNotifications _ _ _) as [res w2].
  cbn [fst snd] in *. subst res. reflexivity.
Qed.

Lemma createRecognition_run userId input w recipient :
  validateRecognitionInput input userId = inr tt ->
  users w !! recipientId input = Some recipient ->
  let row := persistedRow userId input w in
  let w' := snd (createRecognition userId input w) in
  fst (createRecognition userId input w)
    = inr (formatRecognitionResponse (plain row) userId recipient)
  /\ users w' = users w
  /\ recognitions w' = recognitions w ++ [row]
  /\ published_since w w' = notifications (plain row) recipient (bus_script w).
Proof.
  intros Hv Hu. cbv zeta.
  rewrite (createRecognition_steps userId input w recipient Hv Hu). cbn [fst snd].
  destruct (sendNotifications_run (plain (persistedRow userId input w)) recipient
              (snd (append_row (insertValues userId input
                                  (extractKeywords (Some (input_message input)))) w)))
    as (_ & Hus & Hrs & Hcalls).
  split; [reflexivity|]. split; [exact Hus|]. split; [exact Hrs|].
  apply published_since_app. exact Hcalls.
Qed.

(** A call that succeeds passed validation and found its recipient. *)
Lemma createRecognition_ok_inv userId input w resp :
  fst (createRecognition userId input w) = inr resp ->
  validateRecognitionInput input userId = inr tt
  /\ exists recipient, users w !! recipientId input = Some recipient.
Proof.
  intros H.
  destruct (validateRecognitionInput input userId) as [e|[]] eqn:Ev.
  { rewrite (createRecognition_invalid _ _ w _ Ev) in H. discriminate. }
  split; [reflexivity|].
  destruct (users w !! recipientId input) as [recipient|] eqn:Eu; [eauto|].
  exfalso. revert H. unfold createRecognition.
  unfold mbind at 1 2. unfold M_bind, bind, lift at 1. rewrite Ev.
  unfold validateRecipient, select_user.
  unfold mbind at 1. unfold M_bind, bind. rewrite Eu. discriminate.
Qed.

(** What the keywords of a new row parse to. *)
Lemma notifications_created userId input w recipient :
  notifications (plain (persistedRow userId input w)) recipient (bus_script w)
  = match JSON_parse (js_strings (extractKeywords (Some (input_message input)))) with
    | inl _ => []
    | inr kw =>
        let data := recognitionData (plain (persistedRow userId input w)) recipient kw in
        {| channel := "RECOGNITION_RECEIVED";
           payload := JObj [("recognitionReceived", data)];
           resolved := next_resolves (bus_script w) |}
        :: (if next_resolves (bus_script w)
               && String.eqb (input_visibility input) "PUBLIC"
            then [{| channel := "RECOGNITION_CREATED";
                     payload := JObj [("recognitionCreated", data)];
                     resolved := next_resolves (tail (bus_script w)) |}]
            else [])
    end.
Proof. reflexivity. Qed.

End Creation.

(** C3.  In every successful [createRecognition] call the persisted row has
    a null sender exactly when the requested visibility is ANONYMOUS
    (otherwise it carries the caller's id); and for an ANONYMOUS recognition
    the [sender] of the response is [null] and no published payload carries
    a sender. *)
Theorem anonymous_sender_is_null (userId : string) (input : CreateRecognitionInput)
    (w : World) (resp : JSVal) :
  fst (RecognitionService.createRecognition userId input w) = inr resp ->
  let w' := snd (RecognitionService.createRecognition userId input w) in
  exists row,
    recognitions w' = recognitions w ++ [row]
    /\ (sender_id row = None <-> input_visibility input = "ANONYMOUS")
    /\ (input_visibility input <> "ANONYMOUS" -> sender_id row = Some userId)
    /\ (input_visibility input = "ANONYMOUS" ->
        js_get "sender" resp = JNull
        /\ Forall (fun c => js_nullish (js_get "sender" (recognitionOf c)) = true)
                  (published_since w w')).
Proof.
  intros Hok. cbv zeta.
  destruct (createRecognition_ok_inv _ _ _ _ Hok) as (Hv & recipient & Hu).
  destruct (createRecognition_run userId input w recipient Hv Hu)
    as (Hresp & _ & Hrows & Hcalls).
  rewrite Hresp in Hok. injection Hok as <-.
  exists (persistedRow userId input w). split; [exact Hrows|].
  unfold persistedRow, RecognitionService.insertValues. cbn [new_row sender_id].
  destruct (String.eqb_spec (input_visibility input) "ANONYMOUS") as [Ea|Ea].
  - split; [tauto|]. split; [congruence|]. intros _. split.
    + unfold RecognitionService.formatRecognitionResponse. cbn. rewrite Ea. reflexivity.
    + rewrite Hcalls, notifications_created.
      destruct (JSON_parse _) as [e|kw]; [constructor|].
      destruct (_ && _); repeat constructor.
  - split; [split; [discriminate | congruence]|]. split; [reflexivity | congruence].
Qed.

Lemma anonymous_sender_is_null_witness :
  exists row,
    recognitions
      (snd (RecognitionService.createRecognition "u1" (Sample.thanks "ANONYMOUS")
              Sample.world))
    = recognitions Sample.world ++ [row]
    /\ sender_id row = None.
Proof.
  destruct (anonymous_sender_is_null "u1" (Sample.thanks "ANONYMOUS") Sample.world
              (RecognitionService.formatRecognitionResponse
                 (plain (persistedRow "u1" (Sample.thanks "ANONYMOUS") Sample.world))
                 "u1" Sample.bob)
              eq_refl) as (row & Hrows & Hnull & _).
  exists row. split; [exact Hrows|]. apply Hnull. reflexivity.
Defined.

(** C5.  Once the input is valid and the recipient exists, the answer of
    [createRecognition] does not depend on the bus: whatever the [publish]
    calls do, rejections included, the caller gets the formatted record (the
    very answer of a run in which every call resolves), no error, and the
    record stays in the table. *)
Theorem publish_failure_is_absorbed (userId : string) (input : CreateRecognitionInput)
    (w : World) (recipient : UserRow) (script : list bool) :
  RecognitionService.validateRecognitionInput input userId = inr tt ->
  users w !! recipientId input = Some recipient ->
  let run := RecognitionService.createRecognition userId input (with_bus_script script w) in
  fst run
  = inr (RecognitionService.formatRecognitionResponse
           (plain (persistedRow userId input w)) userId recipient)
  /\ fst run
     = fst (RecognitionService.createRecognition userId input (with_bus_script [] w))
  /\ recognitions (snd run) = recognitions w ++ [persistedRow userId input w]
  /\ users (snd run) = users w.
Proof.
  intros Hv Hu. cbv zeta.
  destruct (createRecognition_run userId input (with_bus_script script w) recipient Hv Hu)
    as (Hresp & Hus & Hrows & _).
  destruct (createRecognition_run userId input (with_bus_script [] w) recipient Hv Hu)
    as (Hresp0 & _).
  split; [exact Hresp|]. split; [rewrite Hresp, Hresp0; reflexivity|].
  split; [exact Hrows | exact Hus].
Qed.

Lemma publish_failure_is_absorbed_witness :
  fst (RecognitionService.createRecognition "u1" (Sample.thanks "PUBLIC")
         (with_bus_script [false; false] Sample.world))
  = fst (RecognitionService.createRecognition "u1" (Sample.thanks "PUBLIC")
           (with_bus_script [] Sample.world)).
Proof.
  apply (publish_failure_is_absorbed "u1" (Sample.thanks "PUBLIC") Sample.world
           Sample.bob [false; false]); reflexivity.
Defined.

(** C6, on the sample data of the schema.  John praises Jane in public, in
    the words of the service's tests.  The recognition is created: the
    caller gets the record and the row is in the table.  But the driver
    returns the keywords of a row as an array, [JSON.parse] converts the
    array to the text of its items joined by commas, which is no JSON, and
    throws, and the [catch] of [sendNotifications] swallows the error:
    nothing is published, on either channel.  It is so in every call that
    succeeds, whatever the visibility, unless the keywords joined by commas
    spell one of the words true, false and null. *)
Theorem creation_event_is_not_published :
  (let run := RecognitionService.createRecognition (user_id Seed.john)
                (Seed.praise "PUBLIC") Seed.world in
   (exists resp, fst run = inr resp /\ js_get "visibility" resp = JStr "PUBLIC")
   /\ recognitions (snd run)
      = recognitions Seed.world
        ++ [persistedRow (user_id Seed.john) (Seed.praise "PUBLIC") Seed.world]
   /\ RecognitionService.extractKeywords (Some (input_message (Seed.praise "PUBLIC")))
      = ["great"; "work"]
   /\ JSON_parse (js_strings ["great"; "work"]) = inl E_JSON_SYNTAX
   /\ published_since Seed.world (snd run) = [])
  /\ (forall userId input w resp,
        fst (RecognitionService.createRecognition userId input w) = inr resp ->
        let text :=
          JS.join "," (RecognitionService.extractKeywords (Some (input_message input))) in
        text <> "true" -> text <> "false" -> text <> "null" ->
        published_since w (snd (RecognitionService.createRecognition userId input w)) = []).
Proof.
  split.
  { cbv zeta. split; [eexists; split; vm_compute; reflexivity|].
    repeat split; vm_compute; reflexivity. }
  intros userId input w resp Hok. cbv zeta. intros Ht Hf Hn.
  destruct (createRecognition_ok_inv _ _ _ _ Hok) as (Hv & recipient & Hu).
  destruct (createRecognition_run userId input w recipient Hv Hu) as (_ & _ & _ & Hcalls).
  rewrite Hcalls, notifications_created.
  rewrite (JSON_parse_keywords _ (extractKeywords_letters (input_message input))).
  repeat match goal with
         | |- context [String.eqb ?a ?b] =>
             destruct (String.eqb_spec a b); [contradiction|]
         end.
  reflexivity.
Qed.

(** ** What a subscriber can learn *)

Lemma recognitionData_no_sender r u kw :
  kw = JBool true \/ kw = JBool false \/ kw = JNull ->
  hasField "sender" (RecognitionService.recognitionData r u kw) = false.
Proof. intros [-> | [-> | ->]]; reflexivity. Qed.

(** C10.  Whatever the visibility, the payloads [createRecognition]
    publishes have no [sender] field, at any depth, and do not depend on
    who the sender is: two successful calls that differ only in the sender
    publish the very same calls. *)
Theorem fanout_payload_has_no_sender (userId1 userId2 : string)
    (input : CreateRecognitionInput) (w : World) (resp1 resp2 : JSVal) :
  fst (RecognitionService.createRecognition userId1 input w) = inr resp1 ->
  fst (RecognitionService.createRecognition userId2 input w) = inr resp2 ->
  let sent1 := published_since w (snd (RecognitionService.createRecognition userId1 input w)) in
  let sent2 := published_since w (snd (RecognitionService.createRecognition userId2 input w)) in
  sent1 = sent2
  /\ Forall (fun c => hasField "sender" (payload c) = false
                      /\ obj_get "sender" (recognitionOf c) = None) sent1.
Proof.
  intros Hok1 Hok2. cbv zeta.
  destruct (createRecognition_ok_inv _ _ _ _ Hok1) as (Hv1 & recipient & Hu).
  destruct (createRecognition_ok_inv _ _ _ _ Hok2) as (Hv2 & _).
  destruct (createRecognition_run userId1 input w recipient Hv1 Hu) as (_ & _ & _ & H1).
  destruct (createRecognition_run userId2 input w recipient Hv2 Hu) as (_ & _ & _ & H2).
  rewrite H1, H2, !notifications_created. split; [reflexivity|].
  pose proof (fun kw => JSON_parse_keywords_flat _ kw
                          (extractKeywords_letters (input_message input))) as Hflat.
  destruct (JSON_parse _) as [e|kw]; [constructor|].
  specialize (Hflat kw eq_refl).
  assert (Hp : forall key,
             hasField "sender"
               (JObj [(key,
                  RecognitionService.recognitionData
                    (plain (persistedRow userId1 input w)) recipient kw)])
             = String.eqb key "sender").
  { intros key. cbn [hasField existsb]. rewrite (recognitionData_no_sender _ _ _ Hflat).
    rewrite !orb_false_r. reflexivity. }
  cbv zeta.
  destruct (_ && _); repeat constructor; cbn [payload]; rewrite ?Hp; reflexivity.
Qed.

(** A message whose one keyword is a word of the grammar is among the few
    that are published: John and Bob send it to Jane, and the subscribers
    are sent the same two events. *)
Lemma fanout_payload_has_no_sender_witness :
  published_since Seed.world
    (snd (RecognitionService.createRecognition (user_id Seed.john)
            (Seed.so_true "PUBLIC") Seed.world))
  = published_since Seed.world
      (snd (RecognitionService.createRecognition (user_id Seed.bob)
              (Seed.so_true "PUBLIC") Seed.world))
  /\ channel <$> published_since Seed.world
                   (snd (RecognitionService.createRecognition (user_id Seed.john)
                           (Seed.so_true "PUBLIC") Seed.world))
     = ["RECOGNITION_RECEIVED"; "RECOGNITION_CREATED"].
Proof.
  split; [|reflexivity].
  apply (fanout_payload_has_no_sender (user_id Seed.john) (user_id Seed.bob)
           (Seed.so_true "PUBLIC") Seed.world
           (RecognitionService.formatRecognitionResponse
              (plain (persistedRow (user_id Seed.john) (Seed.so_true "PUBLIC") Seed.world))
              (user_id Seed.john) Seed.jane)
           (RecognitionService.formatRecognitionResponse
              (plain (persistedRow (user_id Seed.bob) (Seed.so_true "PUBLIC") Seed.world))
              (user_id Seed.bob) Seed.jane)
           eq_refl eq_refl).
Defined.

(** ** What a creation leaves behind *)

Section CreationOutcome.

Import RecognitionService.

Lemma createRecognition_no_recipient userId input w :
  validateRecognitionInput input userId = inr tt ->
  users w !! recipientId input = None ->
  createRecognition userId input w = (inl E_RECIPIENT_NOT_FOUND, w).
Proof.
  intros Hv Hu. unfold createRecognition.
  unfold mbind at 1 2. unfold M_bind, bind, lift at 1. rewrite Hv.
  unfold validateRecipient, select_user.
  unfold mbind at 1. unfold M_bind, bind. rewrite Hu. reflexivity.
Qed.

Lemma trimStart_length s : (String.length (JS.trimStart s) <= String.length s)%nat.
Proof.
  induction s as [|c s IH]; simpl; [lia|].
  destruct (JS.isWhiteSpace c); simpl; lia.
Qed.

Lemma trimEnd_length s : (String.length (JS.trimEnd s) <= String.length s)%nat.
Proof.
  induction s as [|c s IH]; simpl; [lia|].
  destruct (JS.trimEnd s); [destruct (JS.isWhiteSpace c)|]; simpl in *; lia.
Qed.

Lemma trim_length s : (String.length (JS.trim s) <= String.length s)%nat.
Proof.
  unfold JS.trim. pose proof (trimEnd_length (JS.trimStart s)).
  pose proof (trimStart_length s). lia.
Qed.

Lemma trimEnd_idempotent s : JS.trimEnd (JS.trimEnd s) = JS.trimEnd s.
Proof.
  induction s as [|c s IH]; [reflexivity|]. cbn [JS.trimEnd].
  destruct (JS.trimEnd s) as [|c' r] eqn:E.
  - destruct (JS.isWhiteSpace c) eqn:Ew; [reflexivity|].
    cbn [JS.trimEnd]. rewrite Ew. reflexivity.
  - cbn [JS.trimEnd] in *. rewrite IH. reflexivity.
Qed.

Lemma trimStart_fixed c s :
  JS.isWhiteSpace c = false -> JS.trimStart (JS.trimEnd (String c s)) = JS.trimEnd (String c s).
Proof.
  intros Hc. cbn [JS.trimEnd]. destruct (JS.trimEnd s); [rewrite Hc|];
    cbn [JS.trimStart]; rewrite Hc; reflexivity.
Qed.

Lemma trimStart_head s :
  JS.trimStart s = "" \/ exists c t, JS.trimStart s = String c t /\ JS.isWhiteSpace c = false.
Proof.
  induction s as [|c s IH]; [left; reflexivity|]. cbn [JS.trimStart].
  destruct (JS.isWhiteSpace c) eqn:E; [exact IH | right; eauto].
Qed.

Lemma trim_idempotent s : JS.trim (JS.trim s) = JS.trim s.
Proof.
  unfold JS.trim. destruct (trimStart_head s) as [->|(c & t & -> & Hc)]; [reflexivity|].
  rewrite (trimStart_fixed c t Hc). apply trimEnd_idempotent.
Qed.

Lemma validateVisibility_ok v :
  validateVisibility v = inr tt ->
  v = "PUBLIC" \/ v = "PRIVATE" \/ v = "ANONYMOUS".
Proof.
  unfold validateVisibility, JS.arrayIncludes. cbn [existsb].
  destruct (String.eqb_spec v "PUBLIC"); [auto|].
  destruct (String.eqb_spec v "PRIVATE"); [auto|].
  destruct (String.eqb_spec v "ANONYMOUS"); [auto|]. discriminate.
Qed.

Lemma validateRecipientSenderID_ok rid userId :
  validateRecipientSenderID rid userId = inr tt -> rid <> "" /\ rid <> userId.
Proof.
  unfold validateRecipientSenderID. destruct rid as [|c rid]; [discriminate|].
  cbn [JS.truthy negb]. destruct (String.eqb_spec (String c rid) userId); [discriminate|].
  intros _. split; [discriminate | assumption].
Qed.

Lemma validateRecognitionInput_ok input userId :
  validateRecognitionInput input userId = inr tt ->
  validateMessage (input_message input) = inr tt
  /\ validateVisibility (input_visibility input) = inr tt
  /\ validateRecipientSenderID (recipientId input) userId = inr tt.
Proof.
  unfold validateRecognitionInput, mbind, Exc_bind.
  destruct (validateMessage _) as [?|[]]; [discriminate|].
  destruct (validateVisibility _) as [?|[]]; [discriminate|].
  destruct (validateRecipientSenderID _ _) as [?|[]]; [discriminate|]. auto.
Qed.

End CreationOutcome.

(** ** Reading recognitions *)

Section Reading.

Import RecognitionService.

Lemma join_users_base us r row : join_users us r = Some row -> base row = r.
Proof.
  unfold join_users. destruct (us !! recipient_id r); [|discriminate].
  cbn. intros [= <-]. reflexivity.
Qed.

Lemma join_users_anonymous us r row :
  join_users us r = Some row -> sender_id r = None ->
  sender_name row = JNull /\ sender_email row = JNull.
Proof.
  unfold join_users. destruct (us !! recipient_id r); [|discriminate].
  cbn. intros [= <-] ->. auto.
Qed.

Lemma selected_rows us cond recs row :
  In row (omap (join_users us) (List.filter cond recs)) ->
  In (base row) recs /\ cond (base row) = true.
Proof.
  intros H. apply list_elem_of_In, list_elem_of_omap in H as (r & Hr & Hj).
  apply list_elem_of_In, filter_In in Hr. apply join_users_base in Hj. subst r.
  exact Hr.
Qed.

Lemma insert_desc_In x r l : In x (insert_desc r l) <-> r = x \/ In x l.
Proof.
  induction l as [|y l IH]; simpl; [tauto|].
  destruct (_ <=? _)%Z; simpl; [tauto|]. rewrite IH. tauto.
Qed.

Lemma order_In x l : In x (order_by_created_at_desc l) <-> In x l.
Proof.
  unfold order_by_created_at_desc. induction l as [|y l IH]; simpl; [tauto|].
  rewrite insert_desc_In, IH. split; intros [H|H]; auto.
Qed.

Lemma insert_desc_sorted r l :
  StronglySorted (fun a b => newer_first (base a) (base b)) l ->
  StronglySorted (fun a b => newer_first (base a) (base b)) (insert_desc r l).
Proof.
  induction 1 as [|y l Hl IH Hy]; simpl; [repeat constructor|].
  destruct (Z.leb_spec (created_at (base y)) (created_at (base r))).
  - constructor; [constructor; assumption|].
    constructor; [assumption|].
    eapply Forall_impl; [exact Hy|]. unfold newer_first. intros; lia.
  - constructor; [assumption|].
    apply Forall_forall. intros x Hx.
    apply list_elem_of_In, insert_desc_In in Hx as [<-|Hx].
    + unfold newer_first. lia.
    + rewrite Forall_forall in Hy. apply Hy, list_elem_of_In, Hx.
Qed.

Lemma order_sorted l :
  StronglySorted (fun a b => newer_first (base a) (base b)) (order_by_created_at_desc l).
Proof.
  unfold order_by_created_at_desc. induction l as [|y l IH]; simpl; [constructor|].
  apply insert_desc_sorted, IH.
Qed.

Lemma take_sorted {A} (R : A -> A -> Prop) l : forall n,
  StronglySorted R l -> StronglySorted R (take n l).
Proof.
  induction l as [|x l IH]; intros [|n] H; simpl; try constructor.
  - apply IH. inversion H; assumption.
  - inversion H as [|? ? _ Hx]; subst. rewrite Forall_forall in *.
    intros y Hy. apply Hx. eapply subseteq_take, Hy.
Qed.

Lemma mapExc_ok {A B} (f : A -> Exc B) l : forall outs,
  mapExc f l = inr outs -> Forall2 (fun a b => f a = inr b) l outs.
Proof.
  induction l as [|a l IH]; simpl; intros outs.
  - intros [= <-]. constructor.
  - unfold mbind, Exc_bind. destruct (f a) as [e|b] eqn:Ea; [discriminate|].
    destruct (mapExc f l) as [e|bs]; [discriminate|].
    intros [= <-]. constructor; [exact Ea | apply IH; reflexivity].
Qed.

Lemma formatRecognitionRow_describes us r row out :
  join_users us r = Some row ->
  formatRecognitionRow row = inr out -> describes r out.
Proof.
  intros Hj. pose proof (join_users_base _ _ _ Hj) as Hb.
  unfold formatRecognitionRow, mbind, Exc_bind.
  destruct (JSON_parse _) as [e|kw]; [discriminate|].
  intros [= <-]. rewrite Hb. unfold describes, js_get. cbn.
  repeat split. intros ->. reflexivity.
Qed.

Lemma Forall2_with_l {A B} (P : A -> B -> Prop) (Q : A -> Prop) l k :
  Forall2 P l k -> Forall Q l -> Forall2 (fun a b => Q a /\ P a b) l k.
Proof.
  induction 1 as [|a b l k Hab _ IH]; intros HQ; constructor;
    inversion HQ; subst; auto.
Qed.

(** The three read methods run one pipeline: select, order, cut, format. *)
Lemma listing cond lim w outs :
  mapExc formatRecognitionRow
    (take lim (order_by_created_at_desc
                 (omap (join_users (users w)) (List.filter cond (recognitions w)))))
  = inr outs ->
  exists rows,
    Forall2 describes rows outs
    /\ Forall (fun r => In r (recognitions w) /\ cond r = true) rows
    /\ StronglySorted newer_first rows
    /\ (length outs <= lim)%nat.
Proof.
  intros H. apply mapExc_ok in H.
  set (sel := omap (join_users (users w)) (List.filter cond (recognitions w))) in *.
  set (cut := take lim (order_by_created_at_desc sel)) in *.
  assert (Hsel : Forall (fun row => In row sel) cut).
  { apply Forall_forall. intros row Hrow. apply subseteq_take in Hrow.
    apply order_In, list_elem_of_In, Hrow. }
  exists (base <$> cut). split; [|split; [|split]].
  - apply Forall2_fmap_l.
    eapply Forall2_impl; [apply (Forall2_with_l _ _ _ _ H Hsel)|].
    cbn. intros row out [Hrow Hf].
    apply list_elem_of_In, list_elem_of_omap in Hrow as (r & _ & Hj).
    rewrite (join_users_base _ _ _ Hj).
    eapply formatRecognitionRow_describes; eassumption.
  - apply Forall_fmap. eapply Forall_impl; [exact Hsel|].
    intros row Hrow. apply selected_rows in Hrow. exact Hrow.
  - assert (Hs : StronglySorted (fun a b => newer_first (base a) (base b)) cut)
      by apply take_sorted, order_sorted.
    clear -Hs. induction Hs as [|x l _ IH Hx]; cbn; constructor; [exact IH|].
    apply Forall_fmap. exact Hx.
  - rewrite <- (Forall2_length _ _ _ H). unfold cut. rewrite length_take. lia.
Qed.

End Reading.
(** ** Soft deletion *)

Section SoftDelete.

Import RecognitionService.

(** [deleteRecognition] never returns.  It throws "not found" when no row
    has the id and its ownership error when the first row of that id was
    not sent by the caller; and when the caller is the sender, the [UPDATE]
    is refused by the server, for DELETED is no label of the enum.  The
    world is as it was. *)
Lemma deleteRecognition_outcome id userId w :
  deleteRecognition id userId w =
    (inl match List.filter (fun r => String.eqb (rec_id r) id) (recognitions w) with
         | [] => E_NOT_FOUND
         | r :: _ =>
             if notSender r userId then E_DELETE_NOT_OWN else E_INVALID_ENUM "DELETED"
         end, w).
Proof.
  unfold deleteRecognition, select_by_id. unfold mbind at 1. unfold M_bind, bind.
  destruct (List.filter _ (recognitions w)) as [|r0 rest]; [reflexivity|].
  cbn [fmap list_fmap base plain]. destruct (notSender r0 userId); reflexivity.
Qed.

(** [updateRecognition] never returns either.  After its own checks (the
    row exists, the caller sent it, a non-empty message is valid, some
    field is given) the [UPDATE] names the column [updated_at], which the
    table does not have, and the server refuses it.  The world is as it
    was. *)
Lemma updateRecognition_outcome userId input w :
  updateRecognition userId input w =
    (inl match List.filter (fun r => String.eqb (rec_id r) (update_id input))
                 (recognitions w) with
         | [] => E_NOT_FOUND
         | r :: _ =>
             if notSender r userId then E_UPDATE_NOT_OWN
             else
               match update_message input with
               | Some m =>
                   if JS.truthy m
                   then match validateMessage m with
                        | inl e => e
                        | inr _ => E_UNDEFINED_COLUMN "updated_at"
                        end
                   else E_UNDEFINED_COLUMN "updated_at"
               | None =>
                   if defined (update_visibility input) || defined (update_keywords input)
                   then E_UNDEFINED_COLUMN "updated_at"
                   else E_NO_FIELDS
               end
         end, w).
Proof.
  unfold updateRecognition, select_by_id. unfold mbind at 1. unfold M_bind, bind.
  destruct (List.filter _ (recognitions w)) as [|r0 rest]; [reflexivity|].
  cbn [fmap list_fmap base plain]. destruct (notSender r0 userId); [reflexivity|].
  destruct (update_message input) as [m|].
  - destruct (JS.truthy m).
    + unfold mbind at 1. unfold M_bind, bind. unfold mbind at 1. unfold M_bind, bind, lift.
      destruct (validateMessage m) as [e|[]]; [reflexivity|].
      destruct (update_visibility input); reflexivity.
    + unfold mbind at 1. unfold M_bind, bind, ret at 1.
      destruct (update_visibility input), (update_keywords input); reflexivity.
  - unfold mbind at 1. unfold M_bind, bind, ret at 1.
    destruct (update_visibility input), (update_keywords input); reflexivity.
Qed.






End SoftDelete.

Section Listings.

Import RecognitionService.

(** [getRecognitions] is refused when the filter names a visibility that
    is no label of the enum; otherwise it selects, orders, cuts and
    formats. *)
Lemma getRecognitions_run userId filters w :
  getRecognitions userId filters w
  = (match filter_visibility filters with
     | Some v =>
         if JS.truthy v && negb (JS.arrayIncludes visibility_labels v)
         then inl (E_INVALID_ENUM v)
         else
           mapExc formatRecognitionRow
             (take (default 20%nat (limit filters))
                (order_by_created_at_desc
                   (omap (join_users (users w))
                      (List.filter
                         (fun r => viewable userId r
                                   && (if JS.truthy v then String.eqb (visibility r) v
                                       else true))
                         (recognitions w)))))
     | None =>
         mapExc formatRecognitionRow
           (take (default 20%nat (limit filters))
              (order_by_created_at_desc
                 (omap (join_users (users w))
                    (List.filter (fun r => viewable userId r && true)
                       (recognitions w)))))
     end, w).
Proof.
  unfold getRecognitions, select_joined, as_visibility.
  unfold mbind, M_bind, bind, lift, ret, throw.
  destruct (filter_visibility filters) as [v|]; [|reflexivity].
  destruct (JS.truthy v); [|reflexivity].
  destruct (JS.arrayIncludes visibility_labels v); reflexivity.
Qed.

Lemma getMyRecognitions_run userId type lim w :
  getMyRecognitions userId type lim w
  = (mapExc formatRecognitionRow
       (take (default 20%nat lim)
          (order_by_created_at_desc
             (omap (join_users (users w))
                (List.filter
                   (fun r => if String.eqb (default "received" type) "sent"
                             then sql_eq (sender_id r) userId
                             else String.eqb (recipient_id r) userId)
                   (recognitions w))))), w).
Proof. reflexivity. Qed.

End Listings.



(** C2.  DELETED is never assigned.  [createRecognition] refuses it as a
    visibility, for every caller, recipient, message and world, with a
    ValidationError when the message is valid.  [updateRecognition] does
    not check the visibility it is given, but no call of it writes
    anything: it throws and leaves the world as it was, since its [UPDATE]
    names a column the table does not have.  So John, who sent the first
    recognition of the sample data, cannot set it to DELETED. *)
Theorem deleted_is_not_assignable :
  (forall userId rid msg w,
     exists e,
       RecognitionService.createRecognition userId
         {| recipientId := rid; input_message := msg; input_visibility := "DELETED" |} w
       = (inl e, w)
       /\ errorKind e = Some ValidationError)
  /\ RecognitionService.validateVisibility "DELETED" = inl E_INVALID_VISIBILITY
  /\ (forall userId input w,
        exists e, RecognitionService.updateRecognition userId input w = (inl e, w))
  /\ RecognitionService.updateRecognition (user_id Seed.john)
       (Sample.set_visibility "rec-0" "DELETED") Seed.world
     = (inl (E_UNDEFINED_COLUMN "updated_at"), Seed.world).
Proof.
  split.
  { intros userId rid msg w.
    destruct (RecognitionService.validateMessage msg) as [e|[]] eqn:Em.
    - exists e. split; [|eapply validateMessage_error_kind, Em].
      apply createRecognition_bad_message. exact Em.
    - exists E_INVALID_VISIBILITY. split; [|reflexivity].
      apply createRecognition_invalid.
      unfold RecognitionService.validateRecognitionInput, mbind, Exc_bind.
      cbn [input_message input_visibility]. rewrite Em. reflexivity. }
  split; [reflexivity|]. split.
  { intros userId input w. rewrite updateRecognition_outcome. eauto. }
  reflexivity.
Qed.

(** * Further properties of the services *)

(** X1.  [createRecognition] is all or nothing.  When it throws, the world
    is exactly as before: nothing was persisted or published.  When it
    answers, the input was valid, the recipient exists, and the table has
    exactly one more row, at its end. *)
Theorem createRecognition_all_or_nothing (userId : string)
    (input : CreateRecognitionInput) (w : World) :
  match RecognitionService.createRecognition userId input w with
  | (inl e, w') => w' = w
  | (inr resp, w') =>
      RecognitionService.validateRecognitionInput input userId = inr tt
      /\ is_Some (users w !! recipientId input)
      /\ recognitions w' = recognitions w ++ [persistedRow userId input w]
      /\ users w' = users w
  end.
Proof.
  destruct (RecognitionService.validateRecognitionInput input userId) as [e|[]] eqn:Hv.
  { rewrite (createRecognition_invalid _ _ w _ Hv). reflexivity. }
  destruct (users w !! recipientId input) as [recipient|] eqn:Hu.
  - destruct (createRecognition_run userId input w recipient Hv Hu)
      as (Hresp & Hus & Hrows & _).
    destruct (RecognitionService.createRecognition userId input w) as [[e|resp] w'];
      cbn [fst snd] in *; [discriminate|].
    split; [reflexivity|]. split; [eauto|]. split; assumption.
  - rewrite (createRecognition_no_recipient _ _ _ Hv Hu). reflexivity.
Qed.

(** X2.  What a successful [createRecognition] stores: the message is the
    trimmed input, so it has no whitespace at either end, and has between 1
    and 500 characters, the visibility is
    one of PUBLIC, PRIVATE and ANONYMOUS, the recipient exists and is not
    the caller; the response shows that message and the keywords extracted
    from the input, of which there are at most five. *)
Theorem created_row_is_well_formed (userId : string) (input : CreateRecognitionInput)
    (w : World) (resp : JSVal) :
  fst (RecognitionService.createRecognition userId input w) = inr resp ->
  let row := persistedRow userId input w in
  let ks := RecognitionService.extractKeywords (Some (input_message input)) in
  In row (recognitions (snd (RecognitionService.createRecognition userId input w)))
  /\ message row = JS.trim (input_message input)
  /\ JS.trim (message row) = message row
  /\ (1 <= String.length (message row) <= 500)%nat
  /\ (visibility row = "PUBLIC" \/ visibility row = "PRIVATE"
      \/ visibility row = "ANONYMOUS")
  /\ recipient_id row <> userId
  /\ is_Some (users w !! recipient_id row)
  /\ keywords row = Some (JSON_stringify ks)
  /\ js_get "message" resp = JStr (message row)
  /\ js_get "keywords" resp = js_strings ks
  /\ (length ks <= 5)%nat.
Proof.
  intros Hok. cbv zeta.
  destruct (createRecognition_ok_inv _ _ _ _ Hok) as (Hv & recipient & Hu).
  destruct (createRecognition_run userId input w recipient Hv Hu)
    as (Hresp & _ & Hrows & _).
  rewrite Hresp in Hok. injection Hok as <-.
  destruct (validateRecognitionInput_ok _ _ Hv) as (Hm & Hvis & Hrid).
  apply validateMessage_ok_iff in Hm as (Hm1 & Hm2 & _).
  pose proof (trim_length (input_message input)) as Hlen.
  apply validateRecipientSenderID_ok in Hrid as (_ & Hne).
  split; [rewrite Hrows; apply in_or_app; right; left; reflexivity|].
  split; [reflexivity|].
  split; [apply trim_idempotent|].
  split; [cbn [persistedRow RecognitionService.insertValues new_row message]; lia|].
  split; [apply validateVisibility_ok, Hvis|].
  split; [exact Hne|]. split; [cbn; eauto|]. split; [reflexivity|].
  split; [reflexivity|]. split; [reflexivity|].
  unfold RecognitionService.extractKeywords.
  destruct (negb _); [cbn; lia|]. rewrite length_take. lia.
Qed.

Lemma created_row_is_well_formed_witness :
  (1 <= String.length
          (message (persistedRow "u1"
                      {| recipientId := "u2"; input_message := "  Thanks a lot  ";
                         input_visibility := "PRIVATE" |} Sample.world)) <= 500)%nat.
Proof.
  apply (created_row_is_well_formed "u1"
           {| recipientId := "u2"; input_message := "  Thanks a lot  ";
              input_visibility := "PRIVATE" |} Sample.world
           (RecognitionService.formatRecognitionResponse
              (plain (persistedRow "u1"
                        {| recipientId := "u2"; input_message := "  Thanks a lot  ";
                           input_visibility := "PRIVATE" |} Sample.world))
              "u1" Sample.bob)
           eq_refl).
Defined.

(** ** The shape of keywords *)


(** X3.  Every keyword [extractKeywords] returns is at least four
    characters long, made of ASCII letters only, in lowercase, and is not a
    stop word; there are at most five; and the extraction does not depend on
    the case of the message. *)
Theorem keywords_are_lowercase_words (m : string) :
  let ks := RecognitionService.extractKeywords (Some m) in
  (length ks <= 5)%nat
  /\ Forall (fun k => (4 <= String.length k)%nat
                      /\ JS.allLetters k = true
                      /\ JS.toLowerCase k = k
                      /\ JS.arrayIncludes RecognitionService.stopWords k = false) ks
  /\ RecognitionService.extractKeywords (Some (JS.toLowerCase m)) = ks.
Proof.
  cbv zeta. split; [|split].
  - rewrite extractKeywords_extract. unfold KeywordExtractor.extract.
    rewrite length_take. lia.
  - rewrite extractKeywords_extract. unfold KeywordExtractor.extract.
    apply Forall_take.
    assert (Hlow : Forall (fun t => JS.toLowerCase t = t)
                     (KeywordExtractor.tokens (JS.toLowerCase m))).
    { unfold KeywordExtractor.tokens. apply Forall_filter_bool.
      eapply Forall_impl;
        [apply (pieces_chars (fun c => JS.lowerChar c = c));
           [constructor | apply lowered_chars]|].
      intros t Ht. apply toLowerCase_fixed, Ht. }
    pose proof (Forall_filter_true KeywordExtractor.kept
                  (KeywordExtractor.tokens (JS.toLowerCase m))) as Hkept.
    pose proof (Forall_filter_bool _ KeywordExtractor.kept _ Hlow) as Hlow'.
    rewrite Forall_forall in *. intros k Hk.
    specialize (Hkept k Hk). specialize (Hlow' k Hk).
    unfold KeywordExtractor.kept, KeywordExtractor.stopWord in Hkept.
    rewrite <- allLetters_alphabetic in Hkept.
    apply andb_prop in Hkept as [Hkept Hstop]. apply andb_prop in Hkept as [Hlen Hal].
    apply Nat.ltb_lt in Hlen. apply negb_true_iff in Hstop. auto.
  - unfold RecognitionService.extractKeywords.
    rewrite toLowerCase_truthy, toLowerCase_idempotent. reflexivity.
Qed.


(** X4.  [getRecognitionById] reads only.  What it returns is a row of that
    id that is PUBLIC or sent by or addressed to the caller, shown without
    sender when the row has none.  When no row of that id passes this test,
    be it because there is none or because the caller may not see it, the
    error is the same "Recognition not found or access denied". *)
Theorem getRecognitionById_guard (id userId : string) (w : World) :
  snd (RecognitionService.getRecognitionById id userId w) = w
  /\ (forall resp,
        fst (RecognitionService.getRecognitionById id userId w) = inr resp ->
        exists r,
          In r (recognitions w) /\ rec_id r = id
          /\ RecognitionService.viewable userId r = true
          /\ describes r resp)
  /\ ((forall r, In r (recognitions w) -> rec_id r = id ->
                 RecognitionService.viewable userId r = false) ->
      fst (RecognitionService.getRecognitionById id userId w) = inl E_NOT_FOUND_OR_DENIED).
Proof.
  unfold RecognitionService.getRecognitionById, select_joined.
  unfold mbind, M_bind, bind.
  set (cond := fun r => String.eqb (rec_id r) id && RecognitionService.viewable userId r).
  destruct (omap (join_users (users w)) (List.filter cond (recognitions w)))
    as [|row rows] eqn:Hsel; cbn [fst snd throw lift].
  - split; [reflexivity|]. split; [discriminate | reflexivity].
  - assert (Hin : In row (omap (join_users (users w)) (List.filter cond (recognitions w))))
      by (rewrite Hsel; left; reflexivity).
    pose proof Hin as Hjoin.
    apply list_elem_of_In, list_elem_of_omap in Hjoin as (r & _ & Hj).
    apply selected_rows in Hin as [Hin Hc].
    rewrite (join_users_base _ _ _ Hj) in Hin, Hc.
    unfold cond in Hc. apply andb_prop in Hc as [Hid Hview].
    apply String.eqb_eq in Hid.
    split; [reflexivity|]. split.
    + intros resp Hresp. exists r. repeat split; try assumption.
      all: eapply formatRecognitionRow_describes; eassumption.
    + intros Hnone. rewrite (Hnone r Hin Hid) in Hview. discriminate.
Qed.

(** X5.  [getRecognitions] reads only, and every recognition it lists is a
    row of the table that is PUBLIC or sent by or addressed to the caller,
    and has the visibility asked for when a (non-empty) one is; the list is
    ordered newest first and is no longer than the limit, 20 by default. *)
Theorem getRecognitions_lists_viewable (userId : string) (filters : RecognitionFilters)
    (w : World) :
  snd (RecognitionService.getRecognitions userId filters w) = w
  /\ forall outs,
       fst (RecognitionService.getRecognitions userId filters w) = inr outs ->
       exists rows,
         Forall2 describes rows outs
         /\ Forall (fun r =>
                      In r (recognitions w)
                      /\ RecognitionService.viewable userId r = true
                      /\ (forall v, filter_visibility filters = Some v -> v <> "" ->
                                    visibility r = v)) rows
         /\ StronglySorted newer_first rows
         /\ (length outs <= default 20 (limit filters))%nat.
Proof.
  rewrite getRecognitions_run. cbn [fst snd].
  split; [reflexivity|]. intros outs H.
  destruct (filter_visibility filters) as [v|].
  - destruct (_ && _); [discriminate|].
    apply listing in H as (rows & Hd & Hrows & Hs & Hlen).
    exists rows. split; [exact Hd|]. split; [|split; assumption].
    eapply Forall_impl; [exact Hrows|]. cbn. intros r [Hin Hc].
    apply andb_prop in Hc as [Hview Hvis]. split; [exact Hin|]. split; [exact Hview|].
    intros v' [= <-] Hne.
    destruct v; [congruence|]. cbn in Hvis. apply String.eqb_eq, Hvis.
  - apply listing in H as (rows & Hd & Hrows & Hs & Hlen).
    exists rows. split; [exact Hd|]. split; [|split; assumption].
    eapply Forall_impl; [exact Hrows|]. cbn. intros r [Hin Hc].
    apply andb_prop in Hc as [Hview _]. split; [exact Hin|]. split; [exact Hview|].
    discriminate.
Qed.

(** X6.  [getMyRecognitions] reads only.  With type "sent" it lists rows
    whose sender is the caller, so never a recognition without sender; with
    any other type, or none, it lists rows addressed to the caller.  The
    list is ordered newest first and is no longer than the limit, 20 by
    default. *)
Theorem getMyRecognitions_lists_own (userId : string) (type : option string)
    (lim : option nat) (w : World) :
  snd (RecognitionService.getMyRecognitions userId type lim w) = w
  /\ forall outs,
       fst (RecognitionService.getMyRecognitions userId type lim w) = inr outs ->
       exists rows,
         Forall2 describes rows outs
         /\ Forall (fun r =>
                      In r (recognitions w)
                      /\ (type = Some "sent" -> sender_id r = Some userId)
                      /\ (type <> Some "sent" -> recipient_id r = userId)) rows
         /\ StronglySorted newer_first rows
         /\ (length outs <= default 20 lim)%nat.
Proof.
  unfold RecognitionService.getMyRecognitions, select_joined.
  unfold mbind, M_bind, bind, lift. cbn [fst snd].
  split; [reflexivity|]. intros outs H.
  apply listing in H as (rows & Hd & Hrows & Hs & Hlen).
  exists rows. split; [exact Hd|]. split; [|split; assumption].
  eapply Forall_impl; [exact Hrows|]. cbn. intros r [Hin Hc]. split; [exact Hin|].
  destruct (String.eqb_spec (default "received" type) "sent") as [E|E].
  - destruct type as [t|]; [|discriminate]. cbn in E. subst t.
    split; [intros _ | congruence].
    unfold RecognitionService.sql_eq in Hc. destruct (sender_id r); [|discriminate].
    apply String.eqb_eq in Hc. congruence.
  - split; [intros ->; cbn in E; congruence|].
    intros _. apply String.eqb_eq, Hc.
Qed.

(** ** Changing and deleting recognitions *)

Section Mutation.

Import RecognitionService.

Lemma filter_none {A} (f : A -> bool) l :
  (forall x, In x l -> f x = false) -> List.filter f l = [].
Proof.
  induction l as [|x l IH]; simpl; intros H; [reflexivity|].
  rewrite (H x) by auto. apply IH. auto.
Qed.

Lemma filter_head {A} (f : A -> bool) l x rest :
  List.filter f l = x :: rest -> In x l /\ f x = true.
Proof.
  intros H. apply filter_In. rewrite H. left. reflexivity.
Qed.

(** [updateRecognition] up to its ownership test. *)
Lemma updateRecognition_not_found userId input w :
  List.filter (fun r => String.eqb (rec_id r) (update_id input)) (recognitions w) = [] ->
  updateRecognition userId input w = (inl E_NOT_FOUND, w).
Proof.
  intros H. unfold updateRecognition, select_by_id.
  unfold mbind at 1. unfold M_bind, bind. rewrite H. reflexivity.
Qed.

Lemma updateRecognition_not_own userId input w r0 rest :
  List.filter (fun r => String.eqb (rec_id r) (update_id input)) (recognitions w)
  = r0 :: rest ->
  notSender r0 userId = true ->
  updateRecognition userId input w = (inl E_UPDATE_NOT_OWN, w).
Proof.
  intros H Hn. unfold updateRecognition, select_by_id.
  unfold mbind at 1. unfold M_bind, bind. rewrite H.
  cbn [fmap list_fmap base plain]. rewrite Hn. reflexivity.
Qed.

Lemma notSender_true r userId : sender_id r <> Some userId -> notSender r userId = true.
Proof.
  unfold notSender. destruct (sender_id r) as [s|]; [|reflexivity].
  destruct (String.eqb_spec s userId); [congruence | reflexivity].
Qed.

Lemma notSender_false r userId : sender_id r = Some userId -> notSender r userId = false.
Proof. unfold notSender. intros ->. rewrite String.eqb_refl. reflexivity. Qed.

(** The first row of an id all of whose rows were sent by the caller. *)
Lemma owned_first id userId w :
  (exists r, In r (recognitions w) /\ rec_id r = id) ->
  (forall r, In r (recognitions w) -> rec_id r = id -> sender_id r = Some userId) ->
  exists r0 rest,
    List.filter (fun r => String.eqb (rec_id r) id) (recognitions w) = r0 :: rest
    /\ notSender r0 userId = false.
Proof.
  intros (r & Hr & Hid) Hall.
  destruct (List.filter (fun r => String.eqb (rec_id r) id) (recognitions w))
    as [|r0 rest] eqn:Hf.
  - assert (Hin : In r (List.filter (fun r => String.eqb (rec_id r) id) (recognitions w)))
      by (apply filter_In; split; [exact Hr | apply String.eqb_eq, Hid]).
    rewrite Hf in Hin. destruct Hin.
  - exists r0, rest. split; [reflexivity|].
    destruct (filter_head _ _ _ _ Hf) as [Hin0 Hid0]. apply String.eqb_eq in Hid0.
    apply notSender_false, Hall; assumption.
Qed.

End Mutation.

(** X7.  Only the sender changes or deletes a recognition.  When no
    recognition has the id, [updateRecognition] and [deleteRecognition]
    throw "Recognition not found"; when some have it and none of them was
    sent by the caller (a recognition without sender, so an anonymous one,
    was sent by nobody), they throw their ownership errors.  In both cases
    the world is left as it was. *)
Theorem only_the_sender_mutates (userId : string) (input : UpdateInput) (w : World) :
  ((forall r, In r (recognitions w) -> rec_id r <> update_id input) ->
   RecognitionService.updateRecognition userId input w = (inl E_NOT_FOUND, w)
   /\ RecognitionService.deleteRecognition (update_id input) userId w
      = (inl E_NOT_FOUND, w))
  /\ ((exists r, In r (recognitions w) /\ rec_id r = update_id input) ->
      (forall r, In r (recognitions w) -> rec_id r = update_id input ->
                 sender_id r <> Some userId) ->
      RecognitionService.updateRecognition userId input w = (inl E_UPDATE_NOT_OWN, w)
      /\ RecognitionService.deleteRecognition (update_id input) userId w
         = (inl E_DELETE_NOT_OWN, w)).
Proof.
  split.
  - intros Hnone.
    assert (Hf : List.filter (fun r => String.eqb (rec_id r) (update_id input))
                   (recognitions w) = []).
    { apply filter_none. intros r Hr. apply String.eqb_neq, Hnone, Hr. }
    split; [apply updateRecognition_not_found, Hf|].
    rewrite deleteRecognition_outcome, Hf. reflexivity.
  - intros (r & Hr & Hid) Hnot.
    destruct (List.filter (fun r => String.eqb (rec_id r) (update_id input))
                (recognitions w)) as [|r0 rest] eqn:Hf.
    + assert (Hin : In r (List.filter (fun r => String.eqb (rec_id r) (update_id input))
                            (recognitions w)))
        by (apply filter_In; split; [exact Hr | apply String.eqb_eq, Hid]).
      rewrite Hf in Hin. destruct Hin.
    + destruct (filter_head _ _ _ _ Hf) as [Hin0 Hid0]. apply String.eqb_eq in Hid0.
      pose proof (notSender_true r0 userId (Hnot r0 Hin0 Hid0)) as Hn.
      split; [eapply updateRecognition_not_own; eassumption|].
      rewrite deleteRecognition_outcome, Hf, Hn. reflexivity.
Qed.

Lemma only_the_sender_mutates_witness :
  RecognitionService.updateRecognition "u2" (Sample.set_visibility "rec-0" "PUBLIC")
    Sample.world_thanked = (inl E_UPDATE_NOT_OWN, Sample.world_thanked)
  /\ RecognitionService.deleteRecognition "rec-0" "u2" Sample.world_thanked
     = (inl E_DELETE_NOT_OWN, Sample.world_thanked).
Proof.
  assert (Hex : exists r, In r (recognitions Sample.world_thanked)
                          /\ rec_id r = update_id (Sample.set_visibility "rec-0" "PUBLIC"))
    by (eexists; split; [left; reflexivity | reflexivity]).
  assert (Hall : forall r, In r (recognitions Sample.world_thanked) ->
                           rec_id r = update_id (Sample.set_visibility "rec-0" "PUBLIC") ->
                           sender_id r <> Some "u2")
    by (intros r [<-|[]] _; discriminate).
  exact (proj2 (only_the_sender_mutates "u2" (Sample.set_visibility "rec-0" "PUBLIC")
                  Sample.world_thanked) Hex Hall).
Defined.

(** X8.  The soft delete is refused.  [deleteRecognition] never returns and
    leaves the world as it was, whoever calls it.  When the rows of that id
    were sent by the caller, it passes its own checks and reaches the
    [UPDATE], which the server refuses: DELETED is no label of the enum
    [visibility].  [getRecognitionStats], whose statement names DELETED as
    well, is refused in the same way for every user. *)
Theorem deleteRecognition_is_refused (id userId : string) (w : World) :
  snd (RecognitionService.deleteRecognition id userId w) = w
  /\ (forall answer, fst (RecognitionService.deleteRecognition id userId w) <> inr answer)
  /\ ((exists r, In r (recognitions w) /\ rec_id r = id) ->
      (forall r, In r (recognitions w) -> rec_id r = id -> sender_id r = Some userId) ->
      fst (RecognitionService.deleteRecognition id userId w)
      = inl (E_INVALID_ENUM "DELETED"))
  /\ RecognitionService.getRecognitionStats userId w
     = (inl (E_INVALID_ENUM "DELETED"), w).
Proof.
  rewrite deleteRecognition_outcome. cbn [fst snd].
  split; [reflexivity|]. split; [discriminate|]. split; [|reflexivity].
  intros Hex Hall.
  destruct (owned_first id userId w Hex Hall) as (r0 & rest & -> & ->). reflexivity.
Qed.

(** John cannot delete the recognition he sent. *)
Lemma deleteRecognition_is_refused_witness :
  fst (RecognitionService.deleteRecognition "rec-0" (user_id Seed.john) Seed.world)
  = inl (E_INVALID_ENUM "DELETED").
Proof.
  assert (Hex : exists r, In r (recognitions Seed.world) /\ rec_id r = "rec-0")
    by (eexists; split; [left; reflexivity | reflexivity]).
  assert (Hall : forall r, In r (recognitions Seed.world) -> rec_id r = "rec-0" ->
                           sender_id r = Some (user_id Seed.john))
    by (intros r [<-|[<-|[<-|[]]]]; [reflexivity | discriminate | discriminate]).
  exact (proj1 (proj2 (proj2 (deleteRecognition_is_refused "rec-0" (user_id Seed.john)
                                Seed.world))) Hex Hall).
Defined.

(** X9.  No update is written.  [updateRecognition] never returns and
    leaves the world as it was.  When the rows of that id were sent by the
    caller, a new message, if given and not empty, is valid, and some field
    is given, the call passes its own checks and reaches the [UPDATE],
    which the server refuses: the statement sets [updated_at], a column the
    table does not have.  An empty message is not validated and reaches
    the [UPDATE] too. *)
Theorem updateRecognition_is_refused (userId : string) (input : UpdateInput)
    (w : World) :
  snd (RecognitionService.updateRecognition userId input w) = w
  /\ (forall answer,
        fst (RecognitionService.updateRecognition userId input w) <> inr answer)
  /\ ((exists r, In r (recognitions w) /\ rec_id r = update_id input) ->
      (forall r, In r (recognitions w) -> rec_id r = update_id input ->
                 sender_id r = Some userId) ->
      (forall m, update_message input = Some m -> m <> "" ->
                 RecognitionService.validateMessage m = inr tt) ->
      update_message input <> None \/ update_visibility input <> None
      \/ update_keywords input <> None ->
      fst (RecognitionService.updateRecognition userId input w)
      = inl (E_UNDEFINED_COLUMN "updated_at")).
Proof.
  rewrite updateRecognition_outcome. cbn [fst snd].
  split; [reflexivity|]. split; [discriminate|].
  intros Hex Hall Hvalid Hsome.
  destruct (owned_first (update_id input) userId w Hex Hall) as (r0 & rest & -> & ->).
  destruct (update_message input) as [m|].
  - destruct m as [|c m]; [reflexivity|]. cbn [JS.truthy].
    rewrite (Hvalid _ eq_refl) by discriminate. reflexivity.
  - destruct (update_visibility input), (update_keywords input); try reflexivity.
    destruct Hsome as [H|[H|H]]; congruence.
Qed.

(** John cannot make private the recognition he sent. *)
Lemma updateRecognition_is_refused_witness :
  fst (RecognitionService.updateRecognition (user_id Seed.john)
         (Sample.set_visibility "rec-0" "PRIVATE") Seed.world)
  = inl (E_UNDEFINED_COLUMN "updated_at").
Proof.
  assert (Hex : exists r, In r (recognitions Seed.world)
                          /\ rec_id r = update_id (Sample.set_visibility "rec-0" "PRIVATE"))
    by (eexists; split; [left; reflexivity | reflexivity]).
  assert (Hall : forall r, In r (recognitions Seed.world) ->
                           rec_id r = update_id (Sample.set_visibility "rec-0" "PRIVATE") ->
                           sender_id r = Some (user_id Seed.john))
    by (intros r [<-|[<-|[<-|[]]]]; [reflexivity | discriminate | discriminate]).
  assert (Hvalid : forall m,
             update_message (Sample.set_visibility "rec-0" "PRIVATE") = Some m ->
             m <> "" -> RecognitionService.validateMessage m = inr tt)
    by discriminate.
  assert (Hsome : update_message (Sample.set_visibility "rec-0" "PRIVATE") <> None
                  \/ update_visibility (Sample.set_visibility "rec-0" "PRIVATE") <> None
                  \/ update_keywords (Sample.set_visibility "rec-0" "PRIVATE") <> None)
    by (right; left; discriminate).
  exact (proj2 (proj2 (updateRecognition_is_refused (user_id Seed.john)
                         (Sample.set_visibility "rec-0" "PRIVATE") Seed.world))
           Hex Hall Hvalid Hsome).
Defined.

(** ** Reading back what was created *)

Section ReadBack.

Import RecognitionService.

(** Fetching the last row of the table by its id, no other row having it,
    when [JSON.parse] refuses its keywords. *)
Lemma getRecognitionById_last viewer w recs row rec ks e :
  recognitions w = recs ++ [row] ->
  (forall r, In r recs -> rec_id r <> rec_id row) ->
  users w !! recipient_id row = Some rec ->
  keywords row = Some (JsonOf ks) ->
  JSON_parse (js_strings ks) = inl e ->
  fst (getRecognitionById (rec_id row) viewer w)
  = inl (if viewable viewer row then e else E_NOT_FOUND_OR_DENIED).
Proof.
  intros Hrows Hfresh Hrec Hkw Hparse.
  unfold getRecognitionById, select_joined. unfold mbind, M_bind, bind.
  rewrite Hrows, List.filter_app.
  rewrite (filter_none _ recs); cycle 1.
  { intros r Hr. apply andb_false_iff. left. apply String.eqb_neq, Hfresh, Hr. }
  cbn [app List.filter]. rewrite String.eqb_refl. cbn [andb].
  destruct (viewable viewer row); [|reflexivity].
  assert (Hj : exists jr, join_users (users w) row = Some jr).
  { unfold join_users. rewrite Hrec. cbn. eauto. }
  destruct Hj as [jr Hj]. cbn [omap list_omap]. rewrite Hj. cbn [lift fst].
  unfold formatRecognitionRow. rewrite (join_users_base _ _ _ Hj), Hkw.
  change (keywordsOrDefault (Some (JsonOf ks))) with (js_strings ks).
  rewrite Hparse. reflexivity.
Qed.

End ReadBack.

(** X12.  A recognition cannot be read back.  After a successful
    [createRecognition] whose keywords, joined by commas, are not one of
    the words true, false and null (and the id being new to the table),
    [getRecognitionById] returns the new record to nobody.  Those who may
    see it, the recipient, the sender unless it is ANONYMOUS, and anyone if
    it is PUBLIC, get the SyntaxError of [JSON.parse], to which the
    keywords come as an array; the others get "not found or access
    denied". *)
Theorem created_recognition_read_back (userId : string) (input : CreateRecognitionInput)
    (w : World) (resp : JSVal) :
  fst (RecognitionService.createRecognition userId input w) = inr resp ->
  (forall r, In r (recognitions w) -> rec_id r <> rec_id (persistedRow userId input w)) ->
  let text :=
    JS.join "," (RecognitionService.extractKeywords (Some (input_message input))) in
  text <> "true" -> text <> "false" -> text <> "null" ->
  let w' := snd (RecognitionService.createRecognition userId input w) in
  let row := persistedRow userId input w in
  let fetch viewer := fst (RecognitionService.getRecognitionById (rec_id row) viewer w') in
  fetch (recipientId input) = inl E_JSON_SYNTAX
  /\ (input_visibility input <> "ANONYMOUS" -> fetch userId = inl E_JSON_SYNTAX)
  /\ (input_visibility input = "ANONYMOUS" -> fetch userId = inl E_NOT_FOUND_OR_DENIED)
  /\ (forall viewer, viewer <> userId -> viewer <> recipientId input ->
        fetch viewer
        = inl (if String.eqb (input_visibility input) "PUBLIC"
               then E_JSON_SYNTAX else E_NOT_FOUND_OR_DENIED)).
Proof.
  intros Hok Hfresh. cbv zeta. intros Ht Hf Hn.
  destruct (createRecognition_ok_inv _ _ _ _ Hok) as (Hv & recipient & Hu).
  destruct (createRecognition_run userId input w recipient Hv Hu)
    as (_ & Hus & Hrows & _).
  destruct (validateRecognitionInput_ok _ _ Hv) as (_ & _ & Hrid).
  apply validateRecipientSenderID_ok in Hrid as (_ & Hne).
  assert (Hrec : users (snd (RecognitionService.createRecognition userId input w))
                 !! recipient_id (persistedRow userId input w) = Some recipient)
    by (rewrite Hus; exact Hu).
  assert (Hparse : JSON_parse (js_strings (RecognitionService.extractKeywords
                                             (Some (input_message input))))
                   = inl E_JSON_SYNTAX).
  { rewrite (JSON_parse_keywords _ (extractKeywords_letters (input_message input))).
    repeat match goal with
           | |- context [String.eqb ?a ?b] =>
               destruct (String.eqb_spec a b); [contradiction|]
           end.
    reflexivity. }
  pose proof (fun viewer =>
                getRecognitionById_last viewer _ _ _ _ _ _ Hrows Hfresh Hrec eq_refl Hparse)
    as Hget.
  assert (Hview : forall viewer,
             RecognitionService.viewable viewer (persistedRow userId input w)
             = String.eqb (input_visibility input) "PUBLIC"
               || (negb (String.eqb (input_visibility input) "ANONYMOUS")
                   && String.eqb userId viewer)
               || String.eqb (recipientId input) viewer).
  { intros viewer. unfold RecognitionService.viewable, persistedRow,
      RecognitionService.insertValues. cbn.
    destruct (String.eqb (input_visibility input) "ANONYMOUS"); reflexivity. }
  split; [|split; [|split]].
  - rewrite Hget, Hview, String.eqb_refl, orb_true_r. reflexivity.
  - intros Hna. rewrite Hget, Hview, String.eqb_refl.
    apply String.eqb_neq in Hna. rewrite Hna. cbn [negb andb].
    rewrite orb_true_r. reflexivity.
  - intros Ha. rewrite Hget, Hview, Ha. cbn.
    apply String.eqb_neq in Hne. rewrite Hne. reflexivity.
  - intros viewer Hv1 Hv2. rewrite Hget, Hview.
    assert (E1 : String.eqb userId viewer = false) by (apply String.eqb_neq; congruence).
    assert (E2 : String.eqb (recipientId input) viewer = false)
      by (apply String.eqb_neq; congruence).
    rewrite E1, E2, andb_false_r, !orb_false_r. reflexivity.
Qed.

(** Jane cannot read John's praise. *)
Lemma created_recognition_read_back_witness :
  fst (RecognitionService.getRecognitionById
         (rec_id (persistedRow (user_id Seed.john) (Seed.praise "PRIVATE") Seed.world))
         (user_id Seed.jane)
         (snd (RecognitionService.createRecognition (user_id Seed.john)
                 (Seed.praise "PRIVATE") Seed.world)))
  = inl E_JSON_SYNTAX.
Proof.
  assert (Hfresh : forall r, In r (recognitions Seed.world) ->
             rec_id r <> rec_id (persistedRow (user_id Seed.john) (Seed.praise "PRIVATE")
                                   Seed.world))
    by (intros r [<-|[<-|[<-|[]]]]; discriminate).
  assert (Ht : JS.join "," (RecognitionService.extractKeywords
                              (Some (input_message (Seed.praise "PRIVATE")))) <> "true")
    by discriminate.
  assert (Hf : JS.join "," (RecognitionService.extractKeywords
                              (Some (input_message (Seed.praise "PRIVATE")))) <> "false")
    by discriminate.
  assert (Hn : JS.join "," (RecognitionService.extractKeywords
                              (Some (input_message (Seed.praise "PRIVATE")))) <> "null")
    by discriminate.
  exact (proj1 (created_recognition_read_back (user_id Seed.john) (Seed.praise "PRIVATE")
                  Seed.world
                  (RecognitionService.formatRecognitionResponse
                     (plain (persistedRow (user_id Seed.john) (Seed.praise "PRIVATE")
                               Seed.world))
                     (user_id Seed.john) Seed.jane)
                  eq_refl Hfresh Ht Hf Hn)).
Defined.

(** ** Roles, in general *)

Section RolesInGeneral.

Import AccessPolicy.

Lemma level_is_rank r :
  JS.arrayIncludes UserService.objectPrototype r = false ->
  UserService.level r = UserService.LNum (rank r).
Proof.
  intros Hp.
  destruct (decide (r = "EMPLOYEE")) as [->|H1]; [reflexivity|].
  destruct (decide (r = "MANAGER")) as [->|H2]; [reflexivity|].
  destruct (decide (r = "HR")) as [->|H3]; [reflexivity|].
  destruct (decide (r = "ADMIN")) as [->|H4]; [reflexivity|].
  rewrite (rank_unknown r H1 H2 H3 H4).
  unfold UserService.level, UserService.roleHierarchy.
  rewrite !lookup_insert_ne by congruence.
  rewrite lookup_singleton_ne by congruence. rewrite Hp. reflexivity.
Qed.

Lemma rank_range r : (0 <= rank r <= 4)%Z.
Proof.
  unfold rank. repeat match goal with |- context [String.eqb r ?s] =>
                        destruct (String.eqb r s) end; lia.
Qed.

End RolesInGeneral.

(** X15.  [UserService.hasRole] compares ranks: for role strings that are
    not names inherited from [Object.prototype], [hasRole(user, required)]
    holds exactly when the rank of the user role is at least the rank of
    the required role, unrecognised roles ranking 0.  So the check is
    reflexive, ADMIN passes every check, and a required role that is not
    recognised is met by every user role, recognised or not. *)
Theorem hasRole_compares_ranks (userRole requiredRole : string) :
  JS.arrayIncludes UserService.objectPrototype userRole = false ->
  JS.arrayIncludes UserService.objectPrototype requiredRole = false ->
  UserService.hasRole userRole requiredRole
  = (AccessPolicy.rank requiredRole <=? AccessPolicy.rank userRole)%Z
  /\ UserService.hasRole userRole userRole = true
  /\ UserService.hasRole "ADMIN" requiredRole = true
  /\ (AccessPolicy.rank requiredRole = 0%Z ->
      UserService.hasRole userRole requiredRole = true).
Proof.
  intros Hu Hr. unfold UserService.hasRole.
  rewrite (level_is_rank _ Hu), (level_is_rank _ Hr).
  change (UserService.level "ADMIN") with (UserService.LNum 4).
  cbn [UserService.level_ge].
  pose proof (rank_range userRole). pose proof (rank_range requiredRole).
  split; [reflexivity|]. split; [apply Z.leb_le; lia|].
  split; [apply Z.leb_le; lia|]. intros ->. apply Z.leb_le. lia.
Qed.

Lemma hasRole_compares_ranks_witness :
  UserService.hasRole "EMPLOYEE" "INTERN" = true.
Proof.
  apply (hasRole_compares_ranks "EMPLOYEE" "INTERN" eq_refl eq_refl). reflexivity.
Defined.

(** ** Subscriptions *)

(** X16.  The event of a creation reaches its recipient only.  Whatever a
    successful [createRecognition] publishes, it publishes first on
    RECOGNITION_RECEIVED; and the resolver of the [recognitionReceived]
    subscription hands every event of that channel, without throwing, to a
    subscriber that gave the recipient's id, and [null] to one that gave
    any other id. *)
Theorem recognitionReceived_reaches_the_recipient (userId : string)
    (input : CreateRecognitionInput) (w : World) (recipient : UserRow) (resp : JSVal) :
  fst (RecognitionService.createRecognition userId input w) = inr resp ->
  users w !! recipientId input = Some recipient ->
  let sent := published_since w (snd (RecognitionService.createRecognition userId input w)) in
  (forall c rest, sent = c :: rest -> channel c = "RECOGNITION_RECEIVED")
  /\ Forall (fun c =>
               channel c = "RECOGNITION_RECEIVED" ->
               js_get "id" (recognitionOf c) = js_get "id" resp
               /\ forall subscriber,
                    Subscription.recognitionReceived (payload c) subscriber
                    = inr (if String.eqb (user_id recipient) subscriber
                           then recognitionOf c else JNull)) sent.
Proof.
  intros Hok Hu.
  destruct (createRecognition_ok_inv _ _ _ _ Hok) as (Hv & _).
  destruct (createRecognition_run userId input w recipient Hv Hu)
    as (Hresp & _ & _ & Hcalls).
  rewrite Hresp in Hok. injection Hok as <-. cbv zeta.
  rewrite Hcalls, notifications_created.
  destruct (JSON_parse _) as [e|kw]; [split; [discriminate | constructor]|].
  cbv zeta. split.
  { intros c rest [= <- _]. reflexivity. }
  constructor.
  - intros _. split; [reflexivity|]. intros subscriber.
    unfold Subscription.recognitionReceived, recognitionOf. cbn.
    destruct (String.eqb (user_id recipient) subscriber); reflexivity.
  - destruct (_ && _); constructor; [discriminate | constructor].
Qed.

(** Of the events of John's message to Jane, Bob is handed [null]. *)
Lemma recognitionReceived_reaches_the_recipient_witness :
  Forall (fun c =>
            channel c = "RECOGNITION_RECEIVED" ->
            Subscription.recognitionReceived (payload c) (user_id Seed.bob) = inr JNull)
         (published_since Seed.world
            (snd (RecognitionService.createRecognition (user_id Seed.john)
                    (Seed.so_true "PRIVATE") Seed.world)))
  /\ channel <$> published_since Seed.world
                   (snd (RecognitionService.createRecognition (user_id Seed.john)
                           (Seed.so_true "PRIVATE") Seed.world))
     = ["RECOGNITION_RECEIVED"].
Proof.
  split; [|reflexivity].
  destruct (recognitionReceived_reaches_the_recipient (user_id Seed.john)
              (Seed.so_true "PRIVATE") Seed.world Seed.jane
              (RecognitionService.formatRecognitionResponse
                 (plain (persistedRow (user_id Seed.john) (Seed.so_true "PRIVATE")
                           Seed.world))
                 (user_id Seed.john) Seed.jane)
              eq_refl eq_refl) as (_ & Hall).
  eapply Forall_impl; [exact Hall|].
  intros c Hc Hch. destruct (Hc Hch) as (_ & Hres). rewrite Hres. reflexivity.
Defined.

(** ** Webhook events *)

Section Events.

Lemma is_string_truthy v s : js_is_string v s = true -> s <> "" -> js_truthy v = true.
Proof.
  destruct v; try discriminate. cbn. intros H Hs. apply String.eqb_eq in H. subst.
  destruct s; [congruence | reflexivity].
Qed.

End Events.

(** X17.  The validators of Slack and Teams events are one function.  An
    event is valid exactly when it is truthy, its [type] is truthy, and it
    has a truthy [text] if its type is "message"; it is valid exactly when
    no error is reported, and never more than one error is. *)
Theorem event_validation (event : JSVal) :
  Validation.validateTeamsEvent event = Validation.validateSlackEvent event
  /\ isValid (Validation.validateSlackEvent event)
     = js_truthy event
       && js_truthy (js_get "type" event)
       && (negb (js_is_string (js_get "type" event) "message")
           || js_truthy (js_get "text" event))
  /\ (isValid (Validation.validateSlackEvent event) = true
      <-> errors (Validation.validateSlackEvent event) = [])
  /\ (length (errors (Validation.validateSlackEvent event)) <= 1)%nat.
Proof.
  split; [reflexivity|]. unfold Validation.validateSlackEvent.
  destruct (js_truthy event); cbn [negb andb isValid errors length];
    [|repeat split; try discriminate; lia].
  destruct (js_is_string (js_get "type" event) "message") eqn:Em.
  - rewrite (is_string_truthy _ _ Em) by discriminate. cbn [negb andb orb app].
    destruct (js_truthy (js_get "text" event)); cbn;
      repeat split; try discriminate; try reflexivity; lia.
  - destruct (js_truthy (js_get "type" event)); cbn;
      repeat split; try discriminate; try reflexivity; lia.
Qed.

Section WhatAReaderDependsOn.

Lemma filter_within {A} (c v : A -> bool) (l : list A) :
  (forall a, c a = true -> v a = true) ->
  List.filter c l = List.filter c (List.filter v l).
Proof.
  intros H. induction l as [|a l IH]; [reflexivity|]. cbn [List.filter].
  destruct (c a) eqn:Ec.
  - rewrite (H a Ec). cbn [List.filter]. rewrite Ec. f_equal. exact IH.
  - destruct (v a); [cbn [List.filter]; rewrite Ec|]; exact IH.
Qed.

Lemma select_joined_within (v cond : RecognitionRow -> bool) (w1 w2 : World) :
  (forall r, cond r = true -> v r = true) ->
  users w1 = users w2 ->
  List.filter v (recognitions w1) = List.filter v (recognitions w2) ->
  fst (select_joined cond w1) = fst (select_joined cond w2).
Proof.
  intros Hc Hu Hr. unfold select_joined. cbn [fst].
  rewrite (filter_within cond v (recognitions w1) Hc).
  rewrite (filter_within cond v (recognitions w2) Hc).
  rewrite Hu, Hr. reflexivity.
Qed.

Lemma own_is_viewable userId r :
  RecognitionService.sql_eq (sender_id r) userId
  || String.eqb (recipient_id r) userId = true ->
  RecognitionService.viewable userId r = true.
Proof.
  unfold RecognitionService.viewable. intros H.
  destruct (String.eqb (visibility r) "PUBLIC"); [reflexivity|exact H].
Qed.

End WhatAReaderDependsOn.

(** X18.  What a reader is answered depends on nothing but the users and the
    recognitions that reader may see (public ones, or ones sent or received
    by the reader): in two worlds that agree on these, [getRecognitions],
    [getMyRecognitions], [getRecognitionById] and [getRecognitionStats]
    answer the same, whatever else the tables hold. *)
Theorem reads_depend_on_viewable_rows (userId : string) (w1 w2 : World) :
  users w1 = users w2 ->
  List.filter (RecognitionService.viewable userId) (recognitions w1)
  = List.filter (RecognitionService.viewable userId) (recognitions w2) ->
  (forall filters,
      fst (RecognitionService.getRecognitions userId filters w1)
      = fst (RecognitionService.getRecognitions userId filters w2))
  /\ (forall type limit,
         fst (RecognitionService.getMyRecognitions userId type limit w1)
         = fst (RecognitionService.getMyRecognitions userId type limit w2))
  /\ (forall id,
         fst (RecognitionService.getRecognitionById id userId w1)
         = fst (RecognitionService.getRecognitionById id userId w2))
  /\ fst (RecognitionService.getRecognitionStats userId w1)
     = fst (RecognitionService.getRecognitionStats userId w2).
Proof.
  intros Hu Hr.
  assert (Hsel : forall cond,
             (forall r, cond r = true -> RecognitionService.viewable userId r = true) ->
             omap (join_users (users w1)) (List.filter cond (recognitions w1))
             = omap (join_users (users w2)) (List.filter cond (recognitions w2))).
  { intros cond Hc.
    pose proof (select_joined_within _ cond w1 w2 Hc Hu Hr) as H.
    unfold select_joined in H. cbn [fst] in H. congruence. }
  split; [|split; [|split]].
  - intros filters. rewrite !getRecognitions_run. cbn [fst].
    destruct (filter_visibility filters) as [v|].
    + destruct (_ && _); [reflexivity|].
      rewrite Hsel; [reflexivity|]. intros r H. apply andb_prop in H. tauto.
    + rewrite Hsel; [reflexivity|]. intros r H. apply andb_prop in H. tauto.
  - intros type limit. rewrite !getMyRecognitions_run. cbn [fst].
    rewrite Hsel; [reflexivity|].
    intros r H. apply own_is_viewable.
    destruct (String.eqb (default "received" type) "sent"); rewrite H;
      [reflexivity | apply orb_true_r].
  - intros id. unfold RecognitionService.getRecognitionById, select_joined.
    unfold mbind, M_bind, bind. rewrite Hsel.
    + destruct (omap _ _) as [|row rows]; reflexivity.
    + intros r H. apply andb_prop in H. tauto.
  - reflexivity.
Qed.

Lemma reads_depend_on_viewable_rows_witness :
  fst (RecognitionService.getRecognitions "u3" Sample.no_filter Sample.world_thanked)
  = fst (RecognitionService.getRecognitions "u3" Sample.no_filter Sample.world).
Proof.
  assert (Hu : users Sample.world_thanked = users Sample.world)
    by (vm_compute; reflexivity).
  assert (Hr : List.filter (RecognitionService.viewable "u3")
                 (recognitions Sample.world_thanked)
               = List.filter (RecognitionService.viewable "u3")
                   (recognitions Sample.world))
    by (vm_compute; reflexivity).
  exact (proj1 (reads_depend_on_viewable_rows "u3" Sample.world_thanked Sample.world
                  Hu Hr) Sample.no_filter).
Defined.
